(** * legal-backend: the request handlers of [server.js]

    A shallow embedding of the Express server: the three route handlers
    ([/generate-document], [/chat], [/upload-training-files]), the multer
    upload configuration, and the error middleware.

    Asynchronous code is sequential inside one request ([await] at every
    step), so a handler is a computation in a state-and-exception monad:
    a JavaScript [throw] keeps every side effect made before it.

    Left out: [console.error] and [console.log] (no handler reads the
    log back), CORS and static files.

    [res.json] throws when [JSON.stringify] does, on a body too long for
    a JavaScript string.  The answer of the upload handler grows with the
    batch, so its [res.json] may throw ([stringify_error]).  The fixed
    error bodies, the completion text and the error messages are taken to
    fit in a string: [res.json] on them does not throw. *)

From stdpp Require Import gmap strings list fin_maps pretty.
From Stdlib Require Import ZArith Ascii.

(** ** Exceptions and the handler monad *)

(** A thrown JavaScript [Error]; the handlers only ever read [message]. *)
Record Error := mkError { message : string }.

Inductive result (A : Type) :=
| Ok (a : A)
| Throw (e : Error).
Arguments Ok {A} a.
Arguments Throw {A} e.

(** [M S A]: a computation over mutable state [S] that returns an [A] or
    throws.  The state after a throw is the state at the throw. *)
Definition M (S A : Type) : Type := S → result A * S.

Definition ret {S A} (a : A) : M S A := λ s, (Ok a, s).
Definition throw {S A} (e : Error) : M S A := λ s, (Throw e, s).
Definition bind {S A B} (k : A → M S B) (c : M S A) : M S B :=
  λ s, match c s with
       | (Ok a, s') => k a s'
       | (Throw e, s') => (Throw e, s')
       end.

(** [try { c } catch (error) { h error }] *)
Definition try_catch {S A} (c : M S A) (h : Error → M S A) : M S A :=
  λ s, match c s with
       | (Ok a, s') => (Ok a, s')
       | (Throw e, s') => h e s'
       end.

(** Lifting of a step that cannot touch the state (a collaborator call). *)
Definition lift {S A} (r : result A) : M S A := λ s, (r, s).

Definition get {S} : M S S := λ s, (Ok s, s).
Definition modify {S} (f : S → S) : M S unit := λ s, (Ok tt, f s).

#[global] Instance M_ret {S} : MRet (M S) := λ A, ret.
#[global] Instance M_bind {S} : MBind (M S) := λ A B, bind.

(** ** Strings of the source *)

Definition nl : string := String (ascii_of_nat 10) EmptyString.
Definition dquote : string := String (ascii_of_nat 34) EmptyString.

(** Indentation of the template literals in the source. *)
Definition indent12 : string := "            ".
Definition indent8 : string := "        ".

(** One source line of a template literal: indentation, text, line end. *)
Definition line (text : string) : string := indent12 +:+ text +:+ nl.

(** ** Request bodies: JSON values as JavaScript sees them *)

(** What the handlers observe of a JavaScript number: whether it is truthy
    (neither zero nor NaN) and its string conversion. *)
Class JsNumber (Number : Type) := {
  number_truthy : Number → bool;
  number_to_string : Number → string
}.

(** The integers that JavaScript holds exactly and prints digit for
    digit: those of absolute value at most [2^53 - 1]. *)
Record SafeInteger := mkSafeInteger {
  safe_value : Z;
  safe_range : bool_decide (Z.abs safe_value ≤ 9007199254740991)%Z = true
}.

#[global] Instance JsNumber_SafeInteger : JsNumber SafeInteger := {|
  number_truthy n := negb (safe_value n =? 0)%Z;
  number_to_string n := pretty (safe_value n)
|}.

Section Json.
Context {Number : Type} `{JsNumber Number}.

(** The values [express.json()] can put under a key of [req.body]. *)
#[warnings="-register-all"] Inductive json :=
| JNull
| JBool (b : bool)
| JNum (n : Number)
| JStr (s : string)
| JArr (elems : list json)
| JObj (props : list (string * json)).

(** JavaScript truthiness, as tested by [!x].  [None] is [undefined]:
    the key is absent from the body. *)
Definition truthy (v : option json) : bool :=
  match v with
  | None => false
  | Some JNull => false
  | Some (JBool b) => b
  | Some (JNum n) => number_truthy n
  | Some (JStr s) => negb (String.eqb s "")
  | Some (JArr _) => true
  | Some (JObj _) => true
  end.

(** Whether a parsed object has an own property named [toString]. *)
Definition has_own_toString (props : list (string * json)) : bool :=
  existsb (λ prop, String.eqb (fst prop) "toString") props.

(** The error of a conversion that finds no usable [toString] or
    [valueOf]. *)
Definition TypeError_primitive : Error :=
  mkError "Cannot convert object to primitive value".

(** [String(v)], the conversion a template literal applies to [${v}].
    An array joins its elements with commas, from left to right, [null]
    elements giving the empty string.  A parsed object goes through
    [Object.prototype.toString] and gives [[object Object]], unless it
    has an own [toString] property: a JSON value is never callable, the
    inherited [valueOf] returns the object itself, and the conversion
    throws a TypeError. *)
Fixpoint to_string (v : json) : result string :=
  match v with
  | JNull => Ok "null"
  | JBool true => Ok "true"
  | JBool false => Ok "false"
  | JNum n => Ok (number_to_string n)
  | JStr s => Ok s
  | JArr elems =>
      let elem (x : json) : result string :=
        match x with
        | JNull => Ok ""
        | _ => to_string x
        end in
      (fix join (l : list json) : result string :=
         match l with
         | [] => Ok ""
         | [x] => elem x
         | x :: rest =>
             match elem x with
             | Throw e => Throw e
             | Ok first =>
                 match join rest with
                 | Throw e => Throw e
                 | Ok others => Ok (first +:+ "," +:+ others)
                 end
             end
         end) elems
  | JObj props =>
      if has_own_toString props then Throw TypeError_primitive
      else Ok "[object Object]"
  end.

Definition interpolate (v : option json) : result string :=
  match v with
  | None => Ok "undefined"
  | Some x => to_string x
  end.
End Json.
Arguments json Number : clear implicits.

(** ** Responses *)

(** An entry of [processedFiles].  A JavaScript object literal with some
    keys left out: an absent key is [None]. *)
Module Processed.
Record t := mk {
  filename : string;
  content : option string;
  size : option Z;
  error : option string
}.
End Processed.

(** The object literals handed to [res.json].  [details] may evaluate to
    [undefined], which [JSON.stringify] leaves out of the body: [None]. *)
Inductive Body :=
| ErrorBody (error : string) (details : option string)
| DocumentBody (document : string)
| ChatBody (response : string) (status : string)
| UploadBody (success : bool) (message : string)
             (processedFiles : list Processed.t).

Record Response := mkResponse { status : Z; body : Body }.

(** [res.json(b)]: the status defaults to 200. *)
Definition res_json (b : Body) : Response := mkResponse 200 b.
(** [res.status(code).json(b)] *)
Definition res_status_json (code : Z) (b : Body) : Response := mkResponse code b.

(** ** The process environment and the two collaborators *)

Abbreviation Buffer := (list Byte.byte).

(** [NODE_ENV] is [process.env.NODE_ENV] ([None] when unset).
    [generateContent prompt] stands for the three source steps
    [model.generateContent(prompt)], [result.response] and
    [response.text()]: the generated text, or the error thrown.
    [pdf dataBuffer] is [pdf-parse], giving [pdfData.text] or throwing.
    [stringify_error processedFiles] is the error [JSON.stringify] throws
    inside [res.json] when the upload answer carrying [processedFiles] is
    too long for a string, [None] when the answer serialises. *)
Record Env := mkEnv {
  NODE_ENV : option string;
  generateContent : string → result string;
  pdf : Buffer → result string;
  stringify_error : list Processed.t → option Error
}.

(** [process.env.NODE_ENV === 'development' ? error.message : undefined] *)
Definition development_details (env : Env) (error : Error) : option string :=
  match NODE_ENV env with
  | Some mode => if String.eqb mode "development" then Some (message error) else None
  | None => None
  end.

(** ** Prompt templates *)

(** The template literal of [/generate-document], with [${documentType}]
    and [${details}] already converted to strings. *)
Definition generation_prompt (documentType details : string) : string :=
  nl +:+
  line ("Generate a professional " +:+ documentType +:+
        " following Indian legal standards.") +:+
  line "" +:+
  line "Details provided:" +:+
  line details +:+
  line "" +:+
  line "Requirements:" +:+
  line "1. Follow Indian legal format" +:+
  line "2. Include all necessary clauses" +:+
  line "3. Use formal legal language" +:+
  line "4. Ensure compliance with Indian laws" +:+
  line "5. Include jurisdiction under Indian courts" +:+
  indent8.

(** The template literal of [/chat]. *)
Definition chat_prompt (message : string) : string :=
  nl +:+
  line ("You are an expert Indian legal assistant. Provide a clear and " +:+
        "helpful response to this question: " +:+
        dquote +:+ message +:+ dquote) +:+
  nl +:+
  line "Guidelines:" +:+
  line "1. Use simple, clear language" +:+
  line "2. Reference specific Indian laws and regulations" +:+
  line "3. Include relevant legal precedents if applicable" +:+
  line "4. Suggest consulting a lawyer for complex matters" +:+
  line "5. Structure the response clearly" +:+
  line "6. Keep it concise but informative" +:+
  nl +:+
  line ("Important: Always include a disclaimer that this is general " +:+
        "information and not legal advice.") +:+
  indent8.

(** ** The completion endpoints *)

(** The state of these handlers is the list of prompts sent so far to the
    remote completion service, oldest first. *)
Abbreviation Calls := (list string).

(** A call to the remote service: it is made (and recorded) whether it
    returns or throws. *)
Definition model_generateContent (env : Env) (prompt : string) : M Calls string :=
  λ calls, (generateContent env prompt, calls ++ [prompt]).

Section Completion.
Context {Number : Type} `{JsNumber Number}.

(** The evaluation of the generation template literal: the two
    substitutions are converted in order, and the first conversion that
    throws ends it. *)
Definition build_generation_prompt (documentType details : option (json Number))
  : result string :=
  match interpolate documentType with
  | Throw error => Throw error
  | Ok documentType_text =>
      match interpolate details with
      | Throw error => Throw error
      | Ok details_text => Ok (generation_prompt documentType_text details_text)
      end
  end.

(** The evaluation of the chat template literal. *)
Definition build_chat_prompt (message : option (json Number)) : result string :=
  match interpolate message with
  | Throw error => Throw error
  | Ok message_text => Ok (chat_prompt message_text)
  end.

(** [app.post('/generate-document', ...)].  [req_body] is the parsed
    object [req.body]; a destructured key that is absent is [undefined]. *)
Definition generate_document (env : Env) (req_body : gmap string (json Number))
  : M Calls Response :=
  try_catch
    (let documentType := req_body !! "documentType" in
     let details := req_body !! "details" in
     if negb (truthy documentType) || negb (truthy details) then
       ret (res_status_json 400
              (ErrorBody "Document type and details are required" None))
     else
       prompt ← lift (build_generation_prompt documentType details);
       text ← model_generateContent env prompt;
       ret (res_json (DocumentBody text)))
    (λ error,
       ret (res_status_json 500
              (ErrorBody "Failed to generate document"
                         (development_details env error)))).

(** [app.post('/chat', ...)] *)
Definition chat (env : Env) (req_body : gmap string (json Number))
  : M Calls Response :=
  try_catch
    (let message := req_body !! "message" in
     if negb (truthy message) then
       ret (res_status_json 400 (ErrorBody "Message is required" None))
     else
       prompt ← lift (build_chat_prompt message);
       text ← model_generateContent env prompt;
       ret (res_json (ChatBody text "success")))
    (λ error,
       ret (res_status_json 500
              (ErrorBody "Failed to process your question. Please try again."
                         (development_details env error)))).

(** A required field is missing ([undefined]) or the empty string. *)
Definition missing_or_empty (v : option (json Number)) : Prop :=
  v = None ∨ v = Some (JStr "").

End Completion.

(** [app.use((error, req, res, next) => ...)]: the error middleware. *)
Definition error_middleware (env : Env) (error : Error) : Response :=
  res_status_json 500
    (ErrorBody "Internal server error" (development_details env error)).

(** ** Uploads: the multer configuration *)

(** The file object multer hands to the handler in [req.files]. *)
Module File.
Record t := mk {
  fieldname : string;
  originalname : string;
  mimetype : string;
  path : string;
  size : Z
}.
End File.

Definition mime_pdf : string := "application/pdf".
Definition mime_doc : string := "application/msword".
Definition mime_docx : string :=
  "application/vnd.openxmlformats-officedocument.wordprocessingml.document".

(** [fileFilter]: [cb(null, true)] is [Ok true], [cb(new Error(..))] is
    [Throw]. *)
Definition fileFilter (mimetype : string) : result bool :=
  if String.eqb mimetype mime_pdf
     || String.eqb mimetype mime_doc
     || String.eqb mimetype mime_docx
  then Ok true
  else Throw (mkError "Only PDF and Word documents are allowed!").

(** [limits.fileSize] *)
Definition limits_fileSize : Z := 5 * 1024 * 1024.

(** The disk: the contents of each existing file, by path. *)
Abbreviation Disk := (gmap string Buffer).

(** [multer.diskStorage({destination, filename})].  [dirname] is
    [__dirname]; the clock, the random draw (already rounded) and
    [path.extname] are inputs. *)
Module storage.
Definition destination (dirname : string) : string := dirname +:+ "/uploads".
Definition filename (extname : string → string) (now rnd : Z)
    (fieldname originalname : string) : string :=
  let uniqueSuffix := pretty now +:+ "-" +:+ pretty rnd in
  fieldname +:+ "-" +:+ uniqueSuffix +:+ extname originalname.
End storage.

(** A file part of the multipart request, before multer has looked at it. *)
Record Candidate := mkCandidate {
  c_fieldname : string;
  c_originalname : string;
  c_mimetype : string;
  c_data : Buffer
}.

(** Modelled from the spec: multer's own request pipeline is library code
    that is not part of [server.js]; only [fileFilter], [limits] and
    [storage] above are.  Section 4.1 of the specification: the filter
    validates the declared MIME type and the size before storage, it fails
    with UnsupportedFileType or FileTooLarge, and a rejection prevents the
    Temp File Store from being invoked for that file.  An accepted file
    is written under [destination]/[filename]. *)
Definition accept_upload (dirname : string) (extname : string → string)
    (now rnd : Z) (c : Candidate) : M Disk File.t :=
  _ ← lift (fileFilter (c_mimetype c));
  let size := Z.of_nat (length (c_data c)) in
  if (limits_fileSize <? size)%Z then throw (mkError "File too large")
  else
    let path := storage.destination dirname +:+ "/" +:+
                storage.filename extname now rnd (c_fieldname c) (c_originalname c) in
    _ ← modify (λ disk : Disk, <[path := c_data c]> disk);
    mret (File.mk (c_fieldname c) (c_originalname c) (c_mimetype c) path size).

(** ** Uploads: the handler *)

(** What the upload handler mutates: the disk and its local array
    [processedFiles].  Both keep their changes when a step throws. *)
Record UploadState := mkUploadState {
  fs : Disk;
  processedFiles : list Processed.t
}.

Definition ENOENT (syscall path : string) : Error :=
  mkError ("ENOENT: no such file or directory, " +:+ syscall +:+ " '" +:+
           path +:+ "'").

(** [fs.readFile(path)]: the bytes, or a rejection when there is no file. *)
Definition fs_readFile (path : string) : M UploadState Buffer :=
  λ st, match fs st !! path with
        | Some data => (Ok data, st)
        | None => (Throw (ENOENT "open" path), st)
        end.

(** [fs.unlink(path)]: removes the file, or rejects when there is none. *)
Definition fs_unlink (path : string) : M UploadState unit :=
  λ st, match fs st !! path with
        | Some _ => (Ok tt, mkUploadState (delete path (fs st)) (processedFiles st))
        | None => (Throw (ENOENT "unlink" path), st)
        end.

(** [processedFiles.push(entry)] *)
Definition push (entry : Processed.t) : M UploadState unit :=
  modify (λ st, mkUploadState (fs st) (processedFiles st ++ [entry])).

(** The entry pushed by the inner [catch]. *)
Definition failed_entry (file : File.t) : Processed.t :=
  Processed.mk (File.originalname file) None None (Some "Failed to process file").

(** The entry pushed at the end of the inner [try]. *)
Definition processed_entry (file : File.t) (content : string) : Processed.t :=
  Processed.mk (File.originalname file) (Some content) (Some (File.size file)) None.

(** The extraction step of the inner [try]: [content] after the [if]. *)
Definition extract (env : Env) (file : File.t) : M UploadState string :=
  if String.eqb (File.mimetype file) mime_pdf then
    dataBuffer ← fs_readFile (File.path file);
    pdfData_text ← lift (pdf env dataBuffer);
    mret pdfData_text
  else mret "".

(** The body of the inner [try]. *)
Definition process_try (env : Env) (file : File.t) : M UploadState unit :=
  content ← extract env file;
  _ ← push (processed_entry file content);
  fs_unlink (File.path file).

(** One iteration of [for (const file of req.files)]. *)
Definition process_file (env : Env) (file : File.t) : M UploadState unit :=
  try_catch (process_try env file)
            (λ fileError, push (failed_entry file)).

(** [for (const x of xs) { body x }] *)
Fixpoint for_of {S A} (xs : list A) (body : A → M S unit) : M S unit :=
  match xs with
  | [] => mret tt
  | x :: rest => _ ← body x; for_of rest body
  end.

(** The outer [catch] of the upload handler. *)
Definition upload_catch (env : Env) (error : Error) : Response :=
  res_status_json 500 (ErrorBody "Failed to process files" (Some (message error))).

(** [app.post('/upload-training-files', upload.array('files'), ...)],
    after multer has stored the accepted files.  [req_files] is
    [req.files], [None] when it is [undefined]. *)
Definition upload_training_files (env : Env) (req_files : option (list File.t))
  : M UploadState Response :=
  try_catch
    (match req_files with
     | None | Some [] =>
         mret (res_status_json 400 (ErrorBody "No files uploaded" None))
     | Some files =>
         _ ← modify (λ st, mkUploadState (fs st) []);
         _ ← for_of files (process_file env);
         st ← get;
         match stringify_error env (processedFiles st) with
         | Some error => throw error
         | None =>
             mret (res_json (UploadBody true "Files processed successfully"
                                        (processedFiles st)))
         end
     end)
    (λ error, mret (upload_catch env error)).

(** A request served on a given disk: the response and the disk left. *)
Definition serve_upload (env : Env) (req_files : option (list File.t))
    (disk : Disk) : result Response * Disk :=
  let '(r, st) := upload_training_files env req_files (mkUploadState disk []) in
  (r, fs st).

(** ** Sample inputs *)

Definition sample_text : string := "Generated text".

(** A production deployment whose completion service answers. *)
Definition env_production : Env :=
  mkEnv (Some "production") (λ _, Ok sample_text) (λ _, Ok "page one")
        (λ _, None).

(** A production deployment in which both collaborators fail. *)
Definition env_failing : Env :=
  mkEnv (Some "production")
        (λ _, Throw (mkError "429 quota exceeded for key"))
        (λ _, Throw (mkError "Invalid PDF structure"))
        (λ _, None).

Definition sample_pdf_path : string := "/srv/app/uploads/files-1730000000000-42.pdf".
Definition sample_doc_path : string := "/srv/app/uploads/files-1730000000001-7.doc".

Definition sample_pdf : File.t :=
  File.mk "files" "contract.pdf" mime_pdf sample_pdf_path 3.
Definition sample_doc : File.t :=
  File.mk "files" "notes.doc" mime_doc sample_doc_path 2.

Definition sample_pdf_bytes : Buffer := [Byte.x25; Byte.x50; Byte.x44].
Definition sample_doc_bytes : Buffer := [Byte.xd0; Byte.xcf].

(** Both temp files are on disk, as multer leaves them. *)
Definition disk_stored : Disk :=
  <[sample_pdf_path := sample_pdf_bytes]> (<[sample_doc_path := sample_doc_bytes]> ∅).

(** The temp file of the Word upload is gone before the handler runs. *)
Definition disk_doc_missing : Disk := <[sample_pdf_path := sample_pdf_bytes]> ∅.

Definition body_nda : gmap string (json SafeInteger) :=
  <["documentType" := JStr "NDA"]> (<["details" := JStr "Two parties, one year"]> ∅).
Definition body_question : gmap string (json SafeInteger) :=
  <["message" := JStr "What is Section 498A?"]> ∅.

(** A development deployment whose completion service fails. *)
Definition env_development_failing : Env :=
  mkEnv (Some "development")
        (λ _, Throw (mkError "429 quota exceeded for key"))
        (λ _, Throw (mkError "Invalid PDF structure"))
        (λ _, None).

(** A production deployment whose parser returns but whose upload answer
    is too long to serialise. *)
Definition env_oversized : Env :=
  mkEnv (Some "production") (λ _, Ok sample_text) (λ _, Ok "page one")
        (λ _, Some (mkError "Invalid string length")).

(** A body whose [documentType] is an object with an own [toString]. *)
Definition body_toString : gmap string (json SafeInteger) :=
  <["documentType" := JObj [("toString", JStr "NDA")]]>
    (<["details" := JStr "Two parties, one year"]> ∅).

(** ** Auxiliary notions for the statements *)

(** Whether a string contains the separator [-] of [storage.filename]. *)
Fixpoint has_dash (s : string) : bool :=
  match s with
  | EmptyString => false
  | String c rest => Ascii.eqb c "-" || has_dash rest
  end.

(** The fixed text of the generation template between [${documentType}]
    and [${details}]. *)
Definition generation_separator : string :=
  " following Indian legal standards." +:+ nl +:+
  line "" +:+
  line "Details provided:" +:+
  indent12.

(** The entries one uploaded file can have put in [processedFiles]: its
    error entry alone, or its content entry, alone or followed by its
    error entry. *)
Definition file_entries (file : File.t) (group : list Processed.t) : Prop :=
  let failed :=
    Processed.mk (File.originalname file) None None
                 (Some "Failed to process file") in
  group = [failed]
  ∨ ∃ content,
      let processed :=
        Processed.mk (File.originalname file) (Some content)
                     (Some (File.size file)) None in
      group = [processed] ∨ group = [processed; failed].

(** The status of a handler's answer, when it answers. *)
Definition status_of {S} (outcome : result Response * S) : option Z :=
  match fst outcome with
  | Ok response => Some (status response)
  | Throw _ => None
  end.

(** * Properties *)

(** Exposes the state-passing functions behind the monad operations. *)
Ltac unfold_monad :=
  unfold mbind, mret, M_bind, M_ret, bind, ret, throw, lift, try_catch,
    modify, get in *.

(** ** Validation, prompts and completions *)

Section CompletionFacts.
Context {Number : Type} `{JsNumber Number}.

Lemma missing_or_empty_falsy v : missing_or_empty v → truthy v = false.
Proof. intros [-> | ->]; reflexivity. Qed.

(** A request that fails the guard of [/generate-document] is answered
    400 and leaves the call log alone. *)
Lemma generate_document_invalid env (req_body : gmap string (json Number)) calls :
  truthy (req_body !! "documentType") && truthy (req_body !! "details") = false →
  generate_document env req_body calls =
    (Ok (mkResponse 400 (ErrorBody "Document type and details are required" None)),
     calls).
Proof.
  intros Hguard. unfold generate_document, try_catch.
  replace (negb (truthy (req_body !! "documentType"))
           || negb (truthy (req_body !! "details")))
    with true; [reflexivity |].
  rewrite <- negb_andb, Hguard. reflexivity.
Qed.

(** A request that passes the guard first builds the prompt.  If a
    conversion throws, no call is made and the answer is 500; otherwise
    exactly one call is made, with the prompt built from the two fields,
    and the answer only depends on what that call returns. *)
Lemma generate_document_valid env (req_body : gmap string (json Number)) calls :
  truthy (req_body !! "documentType") = true →
  truthy (req_body !! "details") = true →
  generate_document env req_body calls =
    match build_generation_prompt (req_body !! "documentType")
                                  (req_body !! "details") with
    | Throw error =>
        (Ok (mkResponse 500 (ErrorBody "Failed to generate document"
                                       (development_details env error))),
         calls)
    | Ok prompt =>
        (match generateContent env prompt with
         | Ok text => Ok (mkResponse 200 (DocumentBody text))
         | Throw error =>
             Ok (mkResponse 500 (ErrorBody "Failed to generate document"
                                           (development_details env error)))
         end, calls ++ [prompt])
    end.
Proof.
  intros Hdt Hd. unfold generate_document.
  rewrite Hdt, Hd. cbn [negb orb].
  unfold_monad. unfold model_generateContent.
  destruct (build_generation_prompt _ _) as [prompt | error]; [| reflexivity].
  destruct (generateContent env prompt); reflexivity.
Qed.

Lemma chat_invalid env (req_body : gmap string (json Number)) calls :
  truthy (req_body !! "message") = false →
  chat env req_body calls =
    (Ok (mkResponse 400 (ErrorBody "Message is required" None)), calls).
Proof. intros Hm. unfold chat, try_catch. rewrite Hm. reflexivity. Qed.

Lemma chat_valid env (req_body : gmap string (json Number)) calls :
  truthy (req_body !! "message") = true →
  chat env req_body calls =
    match build_chat_prompt (req_body !! "message") with
    | Throw error =>
        (Ok (mkResponse 500
               (ErrorBody "Failed to process your question. Please try again."
                          (development_details env error))),
         calls)
    | Ok prompt =>
        (match generateContent env prompt with
         | Ok text => Ok (mkResponse 200 (ChatBody text "success"))
         | Throw error =>
             Ok (mkResponse 500
                   (ErrorBody "Failed to process your question. Please try again."
                              (development_details env error)))
         end, calls ++ [prompt])
    end.
Proof.
  intros Hm. unfold chat. rewrite Hm. cbn [negb].
  unfold_monad. unfold model_generateContent.
  destruct (build_chat_prompt _) as [prompt | error]; [| reflexivity].
  destruct (generateContent env prompt); reflexivity.
Qed.

(** A string field converts to itself. *)
Lemma interpolate_string (text : string) :
  interpolate (Number := Number) (Some (JStr text)) = Ok text.
Proof. reflexivity. Qed.

(** The prompt is built exactly when both conversions return. *)
Lemma build_generation_prompt_converted
    (documentType details : option (json Number)) documentType_text details_text :
  interpolate documentType = Ok documentType_text →
  interpolate details = Ok details_text →
  build_generation_prompt documentType details =
    Ok (generation_prompt documentType_text details_text).
Proof. intros Hdt Hd. unfold build_generation_prompt. by rewrite Hdt, Hd. Qed.

Lemma build_chat_prompt_converted (message : option (json Number)) message_text :
  interpolate message = Ok message_text →
  build_chat_prompt message = Ok (chat_prompt message_text).
Proof. intros Hm. unfold build_chat_prompt. by rewrite Hm. Qed.

Lemma build_generation_prompt_nonempty
    (documentType details : option (json Number)) prompt :
  build_generation_prompt documentType details = Ok prompt → prompt ≠ "".
Proof.
  unfold build_generation_prompt.
  destruct (interpolate documentType); [| discriminate].
  destruct (interpolate details); [| discriminate].
  intros [= <-]. discriminate.
Qed.

Lemma build_chat_prompt_nonempty (message : option (json Number)) prompt :
  build_chat_prompt message = Ok prompt → prompt ≠ "".
Proof.
  unfold build_chat_prompt. destruct (interpolate message); [| discriminate].
  intros [= <-]. discriminate.
Qed.

(** The prompts a request sends: none when the guard rejects it or a
    conversion throws, the built prompt otherwise. *)
Lemma generate_document_sent env (req_body : gmap string (json Number)) calls :
  snd (generate_document env req_body calls) =
    calls ++
    (if truthy (req_body !! "documentType") && truthy (req_body !! "details")
     then match build_generation_prompt (req_body !! "documentType")
                                        (req_body !! "details") with
          | Ok prompt => [prompt]
          | Throw _ => []
          end
     else []).
Proof.
  destruct (truthy (req_body !! "documentType")
            && truthy (req_body !! "details")) eqn:Hvalid.
  - apply andb_true_iff in Hvalid as [Hdt Hd].
    rewrite (generate_document_valid env req_body calls Hdt Hd).
    destruct (build_generation_prompt _ _); cbn [snd];
      [done | by rewrite app_nil_r].
  - rewrite (generate_document_invalid env req_body calls Hvalid).
    cbn [snd]. by rewrite app_nil_r.
Qed.

Lemma chat_sent env (req_body : gmap string (json Number)) calls :
  snd (chat env req_body calls) =
    calls ++
    (if truthy (req_body !! "message")
     then match build_chat_prompt (req_body !! "message") with
          | Ok prompt => [prompt]
          | Throw _ => []
          end
     else []).
Proof.
  destruct (truthy (req_body !! "message")) eqn:Hvalid.
  - rewrite (chat_valid env req_body calls Hvalid).
    destruct (build_chat_prompt _); cbn [snd]; [done | by rewrite app_nil_r].
  - rewrite (chat_invalid env req_body calls Hvalid).
    cbn [snd]. by rewrite app_nil_r.
Qed.

End CompletionFacts.

Lemma generation_prompt_nonempty documentType details :
  generation_prompt documentType details ≠ "".
Proof. discriminate. Qed.

Lemma chat_prompt_nonempty message : chat_prompt message ≠ "".
Proof. discriminate. Qed.

(** The three gated [details] expressions stay silent unless [NODE_ENV]
    is exactly [development]. *)
Lemma development_details_gated env error msg :
  development_details env error = Some msg →
  NODE_ENV env = Some "development" ∧ msg = message error.
Proof.
  unfold development_details. destruct (NODE_ENV env) as [mode|]; [|discriminate].
  destruct (String.eqb mode "development") eqn:Hmode; [|discriminate].
  apply String.eqb_eq in Hmode. intros [= <-]. by subst.
Qed.

(** C5: a request to [/generate-document] whose [documentType] or
    [details] is missing or empty, and a request to [/chat] whose
    [message] is missing or empty, is answered with status 400 and an
    error body (for [/generate-document] exactly
    [{error: "Document type and details are required"}]), and the
    completion service is not called: the call log is unchanged. *)
Theorem missing_field_rejected_without_call {Number : Type} `{JsNumber Number}
    env (req_body : gmap string (json Number)) calls :
  (missing_or_empty (req_body !! "documentType")
   ∨ missing_or_empty (req_body !! "details") →
   generate_document env req_body calls =
     (Ok (mkResponse 400
            (ErrorBody "Document type and details are required" None)),
      calls))
  ∧ (missing_or_empty (req_body !! "message") →
     chat env req_body calls =
       (Ok (mkResponse 400 (ErrorBody "Message is required" None)), calls)).
Proof.
  split.
  - intros Hmiss. apply generate_document_invalid.
    destruct Hmiss as [Hdt | Hd].
    + by rewrite (missing_or_empty_falsy _ Hdt).
    + rewrite (missing_or_empty_falsy _ Hd). apply andb_false_r.
  - intros Hm. apply chat_invalid. by apply missing_or_empty_falsy.
Qed.

Lemma missing_field_rejected_without_call_witness :
  generate_document (Number := SafeInteger) env_production ∅ [] =
    (Ok (mkResponse 400
           (ErrorBody "Document type and details are required" None)), [])
  ∧ chat (Number := SafeInteger) env_production ∅ [] =
    (Ok (mkResponse 400 (ErrorBody "Message is required" None)), []).
Proof.
  destruct (missing_field_rejected_without_call (Number := SafeInteger)
              env_production ∅ []) as [Hgen Hchat].
  split.
  - apply Hgen. left. left. reflexivity.
  - apply Hchat. left. reflexivity.
Defined.

(** C6: when the completion service is called and returns a text, the
    response carries exactly that text: [/generate-document] answers 200
    with [{document: text}] and [/chat] answers 200 with
    [{response: text, status: "success"}]. *)
Theorem completion_text_returned_verbatim {Number : Type} `{JsNumber Number}
    env (req_body : gmap string (json Number)) calls
    documentType_text details_text message_text text :
  (truthy (req_body !! "documentType") = true →
   truthy (req_body !! "details") = true →
   interpolate (req_body !! "documentType") = Ok documentType_text →
   interpolate (req_body !! "details") = Ok details_text →
   generateContent env (generation_prompt documentType_text details_text)
     = Ok text →
   fst (generate_document env req_body calls) =
     Ok (mkResponse 200 (DocumentBody text)))
  ∧ (truthy (req_body !! "message") = true →
     interpolate (req_body !! "message") = Ok message_text →
     generateContent env (chat_prompt message_text) = Ok text →
     fst (chat env req_body calls) =
       Ok (mkResponse 200 (ChatBody text "success"))).
Proof.
  split.
  - intros Hdt Hd Hcdt Hcd Hgen.
    rewrite (generate_document_valid env req_body calls Hdt Hd).
    rewrite (build_generation_prompt_converted _ _ _ _ Hcdt Hcd).
    cbn [fst]. by rewrite Hgen.
  - intros Hm Hcm Hgen. rewrite (chat_valid env req_body calls Hm).
    rewrite (build_chat_prompt_converted _ _ Hcm).
    cbn [fst]. by rewrite Hgen.
Qed.

Lemma completion_text_returned_verbatim_witness :
  fst (generate_document env_production body_nda []) =
    Ok (mkResponse 200 (DocumentBody sample_text))
  ∧ fst (chat env_production body_question []) =
    Ok (mkResponse 200 (ChatBody sample_text "success")).
Proof.
  split.
  - apply (proj1 (completion_text_returned_verbatim
                    env_production body_nda [] "NDA" "Two parties, one year"
                    "" sample_text));
      reflexivity.
  - apply (proj2 (completion_text_returned_verbatim
                    env_production body_question [] "" ""
                    "What is Section 498A?" sample_text));
      reflexivity.
Defined.

(** C9: the prompt is a function of the request fields alone.  Two
    requests with the same [documentType] and [details] (or the same
    [message]) send the same prompts, whatever the environment and the
    calls made before; every prompt sent is a non-empty string; and when
    the fields are truthy and convert to strings, the one prompt sent is
    the template filled with these strings. *)
Theorem prompt_builder_deterministic {Number : Type} `{JsNumber Number}
    env1 env2 (body1 body2 : gmap string (json Number)) calls1 calls2 :
  (body1 !! "documentType" = body2 !! "documentType" →
   body1 !! "details" = body2 !! "details" →
   ∃ sent,
     snd (generate_document env1 body1 calls1) = calls1 ++ sent
     ∧ snd (generate_document env2 body2 calls2) = calls2 ++ sent
     ∧ Forall (λ prompt, prompt ≠ "") sent
     ∧ ∀ documentType_text details_text,
         truthy (body1 !! "documentType") = true →
         truthy (body1 !! "details") = true →
         interpolate (body1 !! "documentType") = Ok documentType_text →
         interpolate (body1 !! "details") = Ok details_text →
         sent = [generation_prompt documentType_text details_text])
  ∧ (body1 !! "message" = body2 !! "message" →
     ∃ sent,
       snd (chat env1 body1 calls1) = calls1 ++ sent
       ∧ snd (chat env2 body2 calls2) = calls2 ++ sent
       ∧ Forall (λ prompt, prompt ≠ "") sent
       ∧ ∀ message_text,
           truthy (body1 !! "message") = true →
           interpolate (body1 !! "message") = Ok message_text →
           sent = [chat_prompt message_text]).
Proof.
  split.
  - intros Edt Ed. eexists. split; [apply generate_document_sent |].
    split; [rewrite generate_document_sent, <- Edt, <- Ed; reflexivity |].
    split.
    + destruct (truthy _ && truthy _); [| constructor].
      destruct (build_generation_prompt _ _) as [prompt |] eqn:Hbuilt;
        [| constructor].
      constructor; [| constructor].
      by apply build_generation_prompt_nonempty in Hbuilt.
    + intros documentType_text details_text Hdt Hd Hcdt Hcd.
      rewrite Hdt, Hd. cbn [andb].
      by rewrite (build_generation_prompt_converted _ _ _ _ Hcdt Hcd).
  - intros Em. eexists. split; [apply chat_sent |].
    split; [rewrite chat_sent, <- Em; reflexivity |].
    split.
    + destruct (truthy _); [| constructor].
      destruct (build_chat_prompt _) as [prompt |] eqn:Hbuilt; [| constructor].
      constructor; [| constructor].
      by apply build_chat_prompt_nonempty in Hbuilt.
    + intros message_text Hm Hcm. rewrite Hm.
      by rewrite (build_chat_prompt_converted _ _ Hcm).
Qed.

Lemma prompt_builder_deterministic_witness :
  (∃ sent,
     snd (generate_document env_production body_nda []) = [] ++ sent
     ∧ snd (generate_document env_failing body_nda []) = [] ++ sent
     ∧ sent = [generation_prompt "NDA" "Two parties, one year"])
  ∧ (∃ sent,
       snd (chat env_production body_question []) = [] ++ sent
       ∧ snd (chat env_failing body_question []) = [] ++ sent
       ∧ sent = [chat_prompt "What is Section 498A?"]).
Proof.
  split.
  - destruct (proj1 (prompt_builder_deterministic env_production env_failing
                       body_nda body_nda [] []))
      as (sent & Hfirst & Hsecond & _ & Hshape); [reflexivity.. |].
    exists sent. split; [exact Hfirst |]. split; [exact Hsecond |].
    apply Hshape; reflexivity.
  - destruct (proj2 (prompt_builder_deterministic env_production env_failing
                       body_question body_question [] []))
      as (sent & Hfirst & Hsecond & _ & Hshape); [reflexivity |].
    exists sent. split; [exact Hfirst |]. split; [exact Hsecond |].
    apply Hshape; reflexivity.
Defined.

(** ** The upload filter *)

Lemma fileFilter_accepts mimetype :
  fileFilter mimetype = Ok true ↔
  mimetype = mime_pdf ∨ mimetype = mime_doc ∨ mimetype = mime_docx.
Proof.
  unfold fileFilter.
  destruct (String.eqb_spec mimetype mime_pdf) as [-> | Hpdf]; [by intuition |].
  destruct (String.eqb_spec mimetype mime_doc) as [-> | Hdoc]; [by intuition |].
  destruct (String.eqb_spec mimetype mime_docx) as [-> | Hdocx]; [by intuition |].
  cbn. split; [discriminate | intuition].
Qed.

Lemma fileFilter_rejects mimetype :
  ¬ (mimetype = mime_pdf ∨ mimetype = mime_doc ∨ mimetype = mime_docx) →
  fileFilter mimetype = Throw (mkError "Only PDF and Word documents are allowed!").
Proof.
  intros Hno. unfold fileFilter.
  destruct (String.eqb_spec mimetype mime_pdf); [tauto |].
  destruct (String.eqb_spec mimetype mime_doc); [tauto |].
  destruct (String.eqb_spec mimetype mime_docx); [tauto |].
  reflexivity.
Qed.

(** C7: the upload filter accepts exactly the MIME types PDF, legacy Word
    and OOXML Word, the size limit is 5,242,880 bytes, and a candidate of
    another type or above the limit is rejected with the disk untouched;
    an accepted candidate is stored under its new path. *)
Theorem upload_filter_exact dirname extname now rnd (c : Candidate) (disk : Disk) :
  let allowed := c_mimetype c = mime_pdf ∨ c_mimetype c = mime_doc
                 ∨ c_mimetype c = mime_docx in
  let size := Z.of_nat (length (c_data c)) in
  (fileFilter (c_mimetype c) = Ok true ↔ allowed)
  ∧ limits_fileSize = 5242880%Z
  ∧ (allowed ∧ (size ≤ 5242880)%Z →
     ∃ file, accept_upload dirname extname now rnd c disk =
               (Ok file, <[File.path file := c_data c]> disk)
             ∧ File.mimetype file = c_mimetype c ∧ File.size file = size)
  ∧ (¬ allowed ∨ (5242880 < size)%Z →
     ∃ error, accept_upload dirname extname now rnd c disk = (Throw error, disk)).
Proof.
  intros allowed size. split; [apply fileFilter_accepts |].
  split; [reflexivity |]. split.
  - intros [Hallowed Hsize]. apply fileFilter_accepts in Hallowed.
    unfold accept_upload. unfold_monad. rewrite Hallowed. fold size.
    destruct (Z.ltb_spec limits_fileSize size) as [Hbig | _].
    + unfold limits_fileSize in Hbig. lia.
    + eexists (File.mk _ _ _ _ _). split; [reflexivity |]. by split.
  - intros Hreject. unfold accept_upload. unfold_monad.
    destruct (fileFilter (c_mimetype c)) as [ok | error] eqn:Hfilter;
      [| by eexists].
    fold size. destruct (Z.ltb_spec limits_fileSize size) as [_ | Hsmall];
      [by eexists |].
    destruct Hreject as [Hno | Hbig].
    + rewrite (fileFilter_rejects _ Hno) in Hfilter. discriminate.
    + unfold limits_fileSize in Hsmall. lia.
Qed.

Lemma upload_filter_exact_witness :
  (∃ file, accept_upload "/srv/app" (λ _, ".pdf") 1730000000000 42
             (mkCandidate "files" "contract.pdf" mime_pdf sample_pdf_bytes) ∅ =
             (Ok file, <[File.path file := sample_pdf_bytes]> ∅)
           ∧ File.mimetype file = mime_pdf ∧ File.size file = 3%Z)
  ∧ (∃ error, accept_upload "/srv/app" (λ _, ".png") 1730000000000 42
                (mkCandidate "files" "scan.png" "image/png" sample_pdf_bytes) ∅ =
                (Throw error, ∅)).
Proof.
  split.
  - apply (upload_filter_exact "/srv/app" (λ _, ".pdf") 1730000000000 42
             (mkCandidate "files" "contract.pdf" mime_pdf sample_pdf_bytes) ∅).
    split; [left; reflexivity | cbn; lia].
  - apply (upload_filter_exact "/srv/app" (λ _, ".png") 1730000000000 42
             (mkCandidate "files" "scan.png" "image/png" sample_pdf_bytes) ∅).
    left. intros [Hm | [Hm | Hm]]; discriminate Hm.
Defined.

(** ** The per-file loop *)

(** Extraction reads the disk and nothing else. *)
Lemma extract_state env file st : snd (extract env file st) = st.
Proof.
  unfold extract. destruct (String.eqb _ _); [| reflexivity].
  unfold_monad. unfold fs_readFile.
  destruct (fs st !! File.path file); [| reflexivity].
  destruct (pdf env _); reflexivity.
Qed.

Lemma extract_frame env file disk pf1 pf2 :
  fst (extract env file (mkUploadState disk pf1)) =
  fst (extract env file (mkUploadState disk pf2)).
Proof.
  unfold extract. destruct (String.eqb _ _); [| reflexivity].
  unfold_monad. unfold fs_readFile. cbn.
  destruct (disk !! File.path file); [| reflexivity].
  destruct (pdf env _); reflexivity.
Qed.

(** Extraction of a PDF succeeds only when its temp file is there. *)
Lemma extract_pdf_reads env file st content :
  File.mimetype file = mime_pdf →
  fst (extract env file st) = Ok content →
  is_Some (fs st !! File.path file).
Proof.
  intros Hpdf. unfold extract. rewrite Hpdf. cbn [String.eqb].
  replace (String.eqb mime_pdf mime_pdf) with true by reflexivity.
  unfold_monad. unfold fs_readFile.
  destruct (fs st !! File.path file); [by eauto | discriminate].
Qed.

(** The three ways one iteration can go. *)
Lemma process_file_extract_fails env file st error :
  fst (extract env file st) = Throw error →
  process_file env file st =
    (Ok tt, mkUploadState (fs st) (processedFiles st ++ [failed_entry file])).
Proof.
  intros Hex. pose proof (extract_state env file st) as Hst.
  unfold process_file, process_try, push. unfold_monad.
  destruct (extract env file st) as [[content | e] st']; cbn in *; subst;
    [discriminate | reflexivity].
Qed.

Lemma process_file_deletes env file st content data :
  fst (extract env file st) = Ok content →
  fs st !! File.path file = Some data →
  process_file env file st =
    (Ok tt, mkUploadState (delete (File.path file) (fs st))
                          (processedFiles st ++ [processed_entry file content])).
Proof.
  intros Hex Hdisk. pose proof (extract_state env file st) as Hst.
  unfold process_file, process_try, push, fs_unlink. unfold_monad.
  destruct (extract env file st) as [[c | e] st']; cbn in *; subst;
    [| discriminate].
  injection Hex as ->. cbn. by rewrite Hdisk.
Qed.

Lemma process_file_unlink_fails env file st content :
  fst (extract env file st) = Ok content →
  fs st !! File.path file = None →
  process_file env file st =
    (Ok tt, mkUploadState (fs st)
              (processedFiles st ++ [processed_entry file content]
                                 ++ [failed_entry file])).
Proof.
  intros Hex Hdisk. pose proof (extract_state env file st) as Hst.
  unfold process_file, process_try, push, fs_unlink. unfold_monad.
  destruct (extract env file st) as [[c | e] st']; cbn in *; subst;
    [| discriminate].
  injection Hex as ->. cbn. rewrite Hdisk. cbn. by rewrite <- app_assoc.
Qed.

(** An iteration never throws, and what it appends and leaves on disk does
    not depend on the entries already collected. *)
Lemma process_file_frame env file disk :
  ∃ disk' entries, ∀ pf,
    process_file env file (mkUploadState disk pf) =
      (Ok tt, mkUploadState disk' (pf ++ entries)).
Proof.
  destruct (fst (extract env file (mkUploadState disk []))) as [content | e]
    eqn:Hex.
  - destruct (disk !! File.path file) as [data |] eqn:Hdisk.
    + exists (delete (File.path file) disk), [processed_entry file content].
      intros pf.
      apply (process_file_deletes env file (mkUploadState disk pf) content data);
        [| done].
      by rewrite <- Hex; apply extract_frame.
    + exists disk, ([processed_entry file content] ++ [failed_entry file]).
      intros pf.
      apply (process_file_unlink_fails env file (mkUploadState disk pf) content);
        [| done].
      by rewrite <- Hex; apply extract_frame.
  - exists disk, [failed_entry file]. intros pf.
    apply (process_file_extract_fails env file (mkUploadState disk pf) e).
    by rewrite <- Hex; apply extract_frame.
Qed.

Lemma for_of_app {S A} (xs ys : list A) (body : A → M S unit) s :
  for_of (xs ++ ys) body s =
    match for_of xs body s with
    | (Ok _, s') => for_of ys body s'
    | (Throw e, s') => (Throw e, s')
    end.
Proof.
  revert s. induction xs as [| x xs IH]; intros s; [reflexivity |].
  cbn [app for_of]. unfold_monad.
  destruct (body x s) as [[[] | e] s']; [apply IH | reflexivity].
Qed.

Lemma process_files_frame env files disk :
  ∃ disk' entries, ∀ pf,
    for_of files (process_file env) (mkUploadState disk pf) =
      (Ok tt, mkUploadState disk' (pf ++ entries)).
Proof.
  revert disk. induction files as [| file files IH]; intros disk.
  - exists disk, []. intros pf. by rewrite app_nil_r.
  - destruct (process_file_frame env file disk) as (disk1 & new1 & Hfile).
    destruct (IH disk1) as (disk2 & new2 & Hrest).
    exists disk2, (new1 ++ new2). intros pf.
    cbn [for_of]. unfold_monad. rewrite Hfile, Hrest. by rewrite app_assoc.
Qed.

(** What an iteration does to the temp file: kept when extraction
    throws, gone when the [try] runs to its end. *)
Lemma temp_file_kept_on_extraction_failure env file st error :
  fst (extract env file st) = Throw error →
  fs (snd (process_file env file st)) = fs st.
Proof.
  intros Hex. by rewrite (process_file_extract_fails env file st error Hex).
Qed.

Lemma temp_file_removed_on_success env file st :
  fst (process_try env file st) = Ok tt →
  fs (snd (process_file env file st)) !! File.path file = None.
Proof.
  intros Hok. pose proof (extract_state env file st) as Hst.
  revert Hok. unfold process_file, process_try, push, fs_unlink. unfold_monad.
  destruct (extract env file st) as [[content | e] st']; cbn in *; subst;
    [| discriminate].
  cbn. destruct (fs st !! File.path file) eqn:Hdisk; cbn; [| discriminate].
  intros _. apply lookup_delete_eq.
Qed.

(** While every temp file is on disk under a path of its own, the loop
    appends one entry per file, in order. *)
Lemma process_files_one_entry_each env files disk pf :
  NoDup (File.path <$> files) →
  (∀ file, file ∈ files → is_Some (disk !! File.path file)) →
  ∃ disk' entries,
    for_of files (process_file env) (mkUploadState disk pf) =
      (Ok tt, mkUploadState disk' (pf ++ entries))
    ∧ Processed.filename <$> entries = File.originalname <$> files.
Proof.
  revert disk pf. induction files as [| file files IH]; intros disk pf Hdup Hon.
  - exists disk, []. by rewrite app_nil_r.
  - rewrite fmap_cons in Hdup. apply NoDup_cons in Hdup as [Hfresh Hdup].
    assert (∃ disk1 entry,
              process_file env file (mkUploadState disk pf) =
                (Ok tt, mkUploadState disk1 (pf ++ [entry]))
              ∧ Processed.filename entry = File.originalname file
              ∧ ∀ other, other ∈ files → is_Some (disk1 !! File.path other))
      as (disk1 & entry & Hfile & Hname & Hon1).
    { destruct (fst (extract env file (mkUploadState disk pf)))
        as [content | e] eqn:Hex.
      - destruct (Hon file) as [data Hdata]; [by left |].
        exists (delete (File.path file) disk), (processed_entry file content).
        split;
          [by apply (process_file_deletes env file (mkUploadState disk pf)
                       content data) |].
        split; [done |]. intros other Hother.
        rewrite lookup_delete_ne; [apply Hon; by right |].
        intros Heq. apply Hfresh. rewrite Heq.
        by apply list_elem_of_fmap_2.
      - exists disk, (failed_entry file).
        split;
          [by apply (process_file_extract_fails env file
                       (mkUploadState disk pf) e) |].
        split; [done |]. intros other Hother. apply Hon. by right. }
    destruct (IH disk1 (pf ++ [entry]) Hdup Hon1) as (disk2 & rest & Hrest & Hnames).
    exists disk2, (entry :: rest). split.
    + cbn [for_of]. unfold_monad. rewrite Hfile, Hrest.
      by rewrite <- app_assoc.
    + cbn. by rewrite Hname, Hnames.
Qed.

(** The loop always runs to its end. *)
Lemma process_files_total env files st :
  ∃ st', for_of files (process_file env) st = (Ok tt, st').
Proof.
  destruct st as [disk pf].
  destruct (process_files_frame env files disk) as (disk' & entries & Hrun).
  eexists. apply Hrun.
Qed.

(** A file that is not a PDF is not read: its content is the empty
    string. *)
Lemma extract_not_pdf env file st :
  File.mimetype file ≠ mime_pdf → extract env file st = (Ok "", st).
Proof.
  intros Hne. unfold extract.
  destruct (String.eqb_spec (File.mimetype file) mime_pdf); [done | reflexivity].
Qed.

(** The response to a non-empty batch, from the run of the loop: the
    collected entries are sent with status 200, unless serialising them
    throws, and then the outer [catch] answers. *)
Lemma serve_upload_nonempty env files disk st :
  files ≠ [] →
  for_of files (process_file env) (mkUploadState disk []) = (Ok tt, st) →
  serve_upload env (Some files) disk =
    (Ok (match stringify_error env (processedFiles st) with
         | None =>
             mkResponse 200 (UploadBody true "Files processed successfully"
                                        (processedFiles st))
         | Some error =>
             mkResponse 500 (ErrorBody "Failed to process files"
                                       (Some (message error)))
         end), fs st).
Proof.
  intros Hne Hrun. destruct files as [| file files]; [done |].
  unfold serve_upload, upload_training_files. unfold_monad.
  cbn [fs processedFiles]. rewrite Hrun.
  by destruct (stringify_error env (processedFiles st)).
Qed.

(** C1 (fails on the code): after a PDF whose extraction throws, the
    response is sent and the stored temp file is still on disk: the inner
    [catch] has no [unlink]. *)
Theorem temp_file_left_after_failed_extraction :
  serve_upload env_failing (Some [sample_pdf]) disk_stored =
    (Ok (mkResponse 200 (UploadBody true "Files processed successfully"
           [Processed.mk "contract.pdf" None None (Some "Failed to process file")])),
     disk_stored)
  ∧ disk_stored !! File.path sample_pdf = Some sample_pdf_bytes.
Proof. split; reflexivity. Qed.

(** C2 (fails on the code): in production mode the outer [catch] of the
    upload handler puts the internal error message in [details], while the
    other three 500 responses leave it out for the same error.  The
    handler reaches that [catch] when sending its answer throws. *)
Theorem upload_error_details_leak_in_production :
  let error := mkError "Invalid string length" in
  let env := mkEnv (Some "production") (λ _, Throw error) (λ _, Throw error)
                   (λ _, Some error) in
  upload_catch env error =
    mkResponse 500 (ErrorBody "Failed to process files" (Some "Invalid string length"))
  ∧ error_middleware env error =
    mkResponse 500 (ErrorBody "Internal server error" None)
  ∧ fst (generate_document env body_nda []) =
    Ok (mkResponse 500 (ErrorBody "Failed to generate document" None))
  ∧ fst (chat env body_question []) =
    Ok (mkResponse 500
          (ErrorBody "Failed to process your question. Please try again." None))
  ∧ fst (serve_upload env (Some [sample_doc]) disk_stored) =
    Ok (mkResponse 500
          (ErrorBody "Failed to process files" (Some "Invalid string length"))).
Proof. repeat split; reflexivity. Qed.

(** C3 (fails on the code): a Word upload whose temp file cannot be
    unlinked gets two entries, the one pushed in the [try] and the one
    pushed in the [catch]. *)
Theorem two_entries_when_unlink_fails :
  serve_upload env_production (Some [sample_doc]) disk_doc_missing =
    (Ok (mkResponse 200 (UploadBody true "Files processed successfully"
           [Processed.mk "notes.doc" (Some "") (Some 2%Z) None;
            Processed.mk "notes.doc" None None (Some "Failed to process file")])),
     disk_doc_missing).
Proof. reflexivity. Qed.

(** C4: a non-empty batch is answered 200 with [success: true] and the
    collected entries, and with 500 only when the handler itself fails,
    that is when sending this answer throws.  A file whose extraction
    throws contributes its error entry
    [{filename, error: "Failed to process file"}] and nothing else: the
    files before and after it are processed as if it were not in the
    batch. *)
Theorem upload_failure_isolated env disk :
  (∀ files, files ≠ [] →
     ∃ entries disk',
       for_of files (process_file env) (mkUploadState disk []) =
         (Ok tt, mkUploadState disk' entries)
       ∧ serve_upload env (Some files) disk =
           (Ok (match stringify_error env entries with
                | None =>
                    mkResponse 200
                      (UploadBody true "Files processed successfully" entries)
                | Some error =>
                    mkResponse 500
                      (ErrorBody "Failed to process files" (Some (message error)))
                end), disk'))
  ∧ (∀ files1 file files2 st1 st2 error,
       for_of files1 (process_file env) (mkUploadState disk []) = (Ok tt, st1) →
       fst (extract env file st1) = Throw error →
       for_of files2 (process_file env) (mkUploadState (fs st1) []) = (Ok tt, st2) →
       let entries :=
         processedFiles st1
         ++ [Processed.mk (File.originalname file) None None
                          (Some "Failed to process file")]
         ++ processedFiles st2 in
       serve_upload env (Some (files1 ++ file :: files2)) disk =
         (Ok (match stringify_error env entries with
              | None =>
                  mkResponse 200
                    (UploadBody true "Files processed successfully" entries)
              | Some failure =>
                  mkResponse 500
                    (ErrorBody "Failed to process files" (Some (message failure)))
              end), fs st2)).
Proof.
  split.
  - intros files Hne.
    destruct (process_files_frame env files disk) as (disk' & entries & Hrun).
    exists entries, disk'. split; [apply (Hrun []) |].
    by rewrite (serve_upload_nonempty env files disk
                  (mkUploadState disk' entries) Hne (Hrun [])).
  - intros files1 file files2 [disk1 pf1] [disk2 pf2] error Hrun1 Hex Hrun2
      entries.
    cbn [fs processedFiles] in *.
    destruct (process_files_frame env files2 disk1) as (disk2' & new2 & Hframe).
    rewrite Hframe in Hrun2. injection Hrun2 as <- <-.
    rewrite (serve_upload_nonempty env _ disk (mkUploadState disk2' entries)).
    + done.
    + by destruct files1.
    + rewrite for_of_app, Hrun1. cbn [for_of]. unfold_monad.
      rewrite (process_file_extract_fails env file _ error Hex).
      cbn [fs processedFiles]. rewrite Hframe. subst entries.
      by rewrite <- app_assoc.
Qed.

Lemma upload_failure_isolated_witness :
  serve_upload env_failing (Some ([sample_doc] ++ sample_pdf :: [sample_doc]))
               disk_stored =
    (Ok (mkResponse 200 (UploadBody true "Files processed successfully"
           [Processed.mk "notes.doc" (Some "") (Some 2%Z) None;
            Processed.mk "contract.pdf" None None (Some "Failed to process file");
            Processed.mk "notes.doc" (Some "") (Some 2%Z) None;
            Processed.mk "notes.doc" None None (Some "Failed to process file")])),
     disk_doc_missing)
  ∧ serve_upload env_oversized (Some ([] ++ sample_pdf :: [])) disk_doc_missing =
      (Ok (mkResponse 500 (ErrorBody "Failed to process files"
                                     (Some "Invalid string length"))),
       delete sample_pdf_path disk_doc_missing)
  ∧ serve_upload env_oversized (Some ([] ++ sample_pdf :: [])) ∅ =
      (Ok (mkResponse 500 (ErrorBody "Failed to process files"
                                     (Some "Invalid string length"))), ∅).
Proof.
  split; [| split].
  - apply (proj2 (upload_failure_isolated env_failing disk_stored)
             [sample_doc] sample_pdf [sample_doc]
             (mkUploadState disk_doc_missing [processed_entry sample_doc ""])
             (mkUploadState disk_doc_missing
                [processed_entry sample_doc ""; failed_entry sample_doc])
             (mkError "Invalid PDF structure"));
      reflexivity.
  - destruct (proj1 (upload_failure_isolated env_oversized disk_doc_missing)
                [sample_pdf]) as (entries & disk' & Hrun & Hserve);
      [discriminate |].
    injection Hrun as <- <-. exact Hserve.
  - apply (proj2 (upload_failure_isolated env_oversized ∅)
             [] sample_pdf []
             (mkUploadState ∅ []) (mkUploadState ∅ [])
             (ENOENT "open" sample_pdf_path));
      reflexivity.
Defined.

(** C8: an accepted Word upload whose processing does not fail gets one
    entry, with [content] the empty string, its size, and no [error]; its
    temp file is unlinked without having been read. *)
Theorem word_file_yields_empty_content env file st :
  File.mimetype file = mime_doc ∨ File.mimetype file = mime_docx →
  fst (process_try env file st) = Ok tt →
  process_file env file st =
    (Ok tt,
     mkUploadState (delete (File.path file) (fs st))
       (processedFiles st ++
        [Processed.mk (File.originalname file) (Some "")
                      (Some (File.size file)) None])).
Proof.
  intros Hword Hok.
  assert (File.mimetype file ≠ mime_pdf) as Hne
    by (destruct Hword as [-> | ->]; discriminate).
  pose proof (extract_not_pdf env file st Hne) as Hex.
  destruct (fs st !! File.path file) as [data |] eqn:Hdisk.
  - apply (process_file_deletes env file st "" data); [by rewrite Hex | done].
  - exfalso. revert Hok. unfold process_try, push, fs_unlink. unfold_monad.
    rewrite Hex. cbn. by rewrite Hdisk.
Qed.

Lemma word_file_yields_empty_content_witness :
  process_file env_production sample_doc (mkUploadState disk_stored []) =
    (Ok tt,
     mkUploadState (delete sample_doc_path disk_stored)
       [Processed.mk "notes.doc" (Some "") (Some 2%Z) None]).
Proof.
  apply (word_file_yields_empty_content env_production sample_doc
           (mkUploadState disk_stored [])).
  - left. reflexivity.
  - reflexivity.
Defined.

(** The entry the inner [catch] appends, whatever was thrown. *)
Lemma catch_appends_failed_entry env file st error :
  fst (process_try env file st) = Throw error →
  let thrown := snd (process_try env file st) in
  process_file env file st =
    (Ok tt,
     mkUploadState (fs thrown)
       (processedFiles thrown ++
        [Processed.mk (File.originalname file) None None
                      (Some "Failed to process file")])).
Proof.
  intros Hthrow thrown. subst thrown. unfold process_file, try_catch.
  destruct (process_try env file st) as [outcome st']. cbn in *.
  by rewrite Hthrow.
Qed.

(** C10 (fails on the code): the processing of a Word upload whose temp
    file cannot be unlinked fails, and what the client sees for that file
    is not the error entry alone: the entry pushed before the failing
    [unlink], with its [content] and [size], is in the answer too. *)
Theorem failed_word_file_keeps_content_entry :
  fst (process_try env_production sample_doc
         (mkUploadState disk_doc_missing [])) =
    Throw (mkError ("ENOENT: no such file or directory, unlink '" +:+
                    sample_doc_path +:+ "'"))
  ∧ process_file env_production sample_doc (mkUploadState disk_doc_missing []) =
      (Ok tt,
       mkUploadState disk_doc_missing
         [Processed.mk "notes.doc" (Some "") (Some 2%Z) None;
          Processed.mk "notes.doc" None None (Some "Failed to process file")]).
Proof. split; reflexivity. Qed.

(** * Further properties of the handlers *)

(** ** Strings *)

Lemma append_cons (c : ascii) (s1 s2 : string) :
  String c s1 +:+ s2 = String c (s1 +:+ s2).
Proof. reflexivity. Qed.

Lemma append_assoc (s1 s2 s3 : string) :
  (s1 +:+ s2) +:+ s3 = s1 +:+ (s2 +:+ s3).
Proof.
  induction s1 as [| c s1 IH]; [done |]. rewrite !append_cons. by f_equal.
Qed.

Lemma length_append (s1 s2 : string) :
  String.length (s1 +:+ s2) = String.length s1 + String.length s2.
Proof.
  induction s1 as [| c s1 IH]; [done |]. rewrite append_cons. cbn.
  by f_equal.
Qed.

Lemma append_inv_tail (s1 s2 tail : string) :
  s1 +:+ tail = s2 +:+ tail → s1 = s2.
Proof.
  revert s2. induction s1 as [| c s1 IH]; intros [| c2 s2] Heq.
  - done.
  - apply (f_equal String.length) in Heq.
    rewrite !length_append in Heq. cbn in Heq. lia.
  - apply (f_equal String.length) in Heq.
    rewrite !length_append in Heq. cbn in Heq. lia.
  - rewrite !append_cons in Heq. injection Heq as -> Heq. f_equal.
    by apply IH.
Qed.

(** Two texts cut at their first dash agree part by part. *)
Lemma split_at_dash (a1 a2 b1 b2 : string) :
  has_dash a1 = false → has_dash a2 = false →
  a1 +:+ "-" +:+ b1 = a2 +:+ "-" +:+ b2 → a1 = a2 ∧ b1 = b2.
Proof.
  revert a2. induction a1 as [| c1 a1 IH]; intros [| c2 a2] H1 H2 Heq;
    rewrite ?append_cons in Heq; cbn [has_dash] in *.
  - change ("" +:+ "-" +:+ b1) with (String "-" b1) in Heq.
    change ("" +:+ "-" +:+ b2) with (String "-" b2) in Heq.
    by injection Heq.
  - change ("" +:+ "-" +:+ b1) with (String "-" b1) in Heq.
    injection Heq as <- _. discriminate H2.
  - change ("" +:+ "-" +:+ b2) with (String "-" b2) in Heq.
    injection Heq as -> _. discriminate H1.
  - injection Heq as -> Heq.
    apply orb_false_iff in H1 as [_ H1]. apply orb_false_iff in H2 as [_ H2].
    destruct (IH a2 H1 H2 Heq) as [-> ->]. done.
Qed.

Lemma pretty_N_go_no_dash (x : N) (s : string) :
  has_dash s = false → has_dash (pretty_N_go x s) = false.
Proof.
  revert s. induction (N.lt_wf_0 x) as [x _ IH]; intros s Hs.
  assert (x = 0 ∨ 0 < x)%N as [-> | Hpos] by lia.
  - by rewrite pretty_N_go_0.
  - rewrite pretty_N_go_step by done. apply IH.
    { by apply N.div_lt. }
    cbn [has_dash]. rewrite Hs. unfold pretty_N_char. by repeat case_match.
Qed.

(** The decimal form of a non-negative integer has no dash. *)
Lemma pretty_Z_no_dash (z : Z) : (0 ≤ z)%Z → has_dash (pretty z) = false.
Proof.
  intros Hz. destruct z as [| p | p]; [done | | lia].
  unfold pretty, pretty_Z, pretty, pretty_positive, pretty, pretty_N.
  case_decide; [done |]. by apply pretty_N_go_no_dash.
Qed.

(** ** The completion endpoints, for every JSON value *)

Lemma development_details_decide env error :
  development_details env error =
    if decide (NODE_ENV env = Some "development")
    then Some (message error) else None.
Proof.
  unfold development_details. destruct (NODE_ENV env) as [mode |].
  - destruct (String.eqb_spec mode "development") as [-> | Hne].
    + by rewrite decide_True.
    + rewrite decide_False; [done | congruence].
  - by rewrite decide_False.
Qed.

(** X1: [/generate-document] always answers, with 400, 200 or 500.  It
    answers 400 exactly when [documentType] or [details] is falsy
    ([undefined], [null], [false], a falsy number or the empty string;
    arrays and objects pass), 200 exactly when both are truthy, the prompt
    is built and the completion call returns, 500 exactly when both are
    truthy and either a conversion in the template throws or the call
    throws.  The completion service is called once when the prompt is
    built and never otherwise. *)
Theorem generate_document_status {Number : Type} `{JsNumber Number}
    env (req_body : gmap string (json Number)) calls :
  let valid := truthy (req_body !! "documentType")
               && truthy (req_body !! "details") in
  let built := build_generation_prompt (req_body !! "documentType")
                                       (req_body !! "details") in
  let outcome := generate_document env req_body calls in
  (status_of outcome = Some 400%Z ↔ valid = false)
  ∧ (status_of outcome = Some 200%Z ↔
     valid = true
     ∧ ∃ prompt text, built = Ok prompt ∧ generateContent env prompt = Ok text)
  ∧ (status_of outcome = Some 500%Z ↔
     valid = true
     ∧ ((∃ error, built = Throw error)
        ∨ ∃ prompt error,
            built = Ok prompt ∧ generateContent env prompt = Throw error))
  ∧ snd outcome =
      (if valid then match built with
                     | Ok prompt => calls ++ [prompt]
                     | Throw _ => calls
                     end
       else calls).
Proof.
  intros valid built outcome. subst outcome.
  destruct valid eqn:Hvalid; subst valid.
  - apply andb_true_iff in Hvalid as [Hdt Hd].
    rewrite (generate_document_valid env req_body calls Hdt Hd).
    fold built. unfold status_of.
    destruct built as [prompt | error]; cbn [fst snd].
    + destruct (generateContent env prompt) as [text | error] eqn:Hcall; cbn.
      * repeat split; try done; eauto.
        intros [_ [(? & ?) | (? & ? & ? & ?)]]; congruence.
      * repeat split; try done; eauto 6.
        intros [_ (? & ? & ? & ?)]; congruence.
    + cbn. repeat split; try done; eauto.
      intros [_ (? & ? & ? & _)]; done.
  - rewrite (generate_document_invalid env req_body calls Hvalid).
    unfold status_of. cbn. repeat split; try done; by intros [? _].
Qed.

(** X2: [/chat] always answers, with 400 exactly when [message] is falsy,
    200 exactly when it is truthy, the prompt is built and the completion
    call returns, 500 exactly when it is truthy and either the conversion
    in the template throws or the call throws; the completion service is
    called once when the prompt is built and never otherwise. *)
Theorem chat_status {Number : Type} `{JsNumber Number}
    env (req_body : gmap string (json Number)) calls :
  let valid := truthy (req_body !! "message") in
  let built := build_chat_prompt (req_body !! "message") in
  let outcome := chat env req_body calls in
  (status_of outcome = Some 400%Z ↔ valid = false)
  ∧ (status_of outcome = Some 200%Z ↔
     valid = true
     ∧ ∃ prompt text, built = Ok prompt ∧ generateContent env prompt = Ok text)
  ∧ (status_of outcome = Some 500%Z ↔
     valid = true
     ∧ ((∃ error, built = Throw error)
        ∨ ∃ prompt error,
            built = Ok prompt ∧ generateContent env prompt = Throw error))
  ∧ snd outcome =
      (if valid then match built with
                     | Ok prompt => calls ++ [prompt]
                     | Throw _ => calls
                     end
       else calls).
Proof.
  intros valid built outcome. subst outcome.
  destruct valid eqn:Hvalid; subst valid.
  - rewrite (chat_valid env req_body calls Hvalid).
    fold built. unfold status_of.
    destruct built as [prompt | error]; cbn [fst snd].
    + destruct (generateContent env prompt) as [text | error] eqn:Hcall; cbn.
      * repeat split; try done; eauto.
        intros [_ [(? & ?) | (? & ? & ? & ?)]]; congruence.
      * repeat split; try done; eauto 6.
        intros [_ (? & ? & ? & ?)]; congruence.
    + cbn. repeat split; try done; eauto.
      intros [_ (? & ? & ? & _)]; done.
  - rewrite (chat_invalid env req_body calls Hvalid).
    unfold status_of. cbn. repeat split; try done; by intros [? _].
Qed.

(** X3: when a conversion in the template or the completion call throws,
    both endpoints answer 500 with their fixed message; [details] is the
    message of the error thrown when [NODE_ENV] is exactly [development]
    and is absent in every other mode. *)
Theorem completion_failure_response {Number : Type} `{JsNumber Number}
    env (req_body : gmap string (json Number)) calls error :
  let details := if decide (NODE_ENV env = Some "development")
                 then Some (message error) else None in
  (truthy (req_body !! "documentType") = true →
   truthy (req_body !! "details") = true →
   build_generation_prompt (req_body !! "documentType") (req_body !! "details")
     = Throw error
   ∨ (∃ prompt,
        build_generation_prompt (req_body !! "documentType")
                                (req_body !! "details") = Ok prompt
        ∧ generateContent env prompt = Throw error) →
   fst (generate_document env req_body calls) =
     Ok (mkResponse 500 (ErrorBody "Failed to generate document" details)))
  ∧ (truthy (req_body !! "message") = true →
     build_chat_prompt (req_body !! "message") = Throw error
     ∨ (∃ prompt,
          build_chat_prompt (req_body !! "message") = Ok prompt
          ∧ generateContent env prompt = Throw error) →
     fst (chat env req_body calls) =
       Ok (mkResponse 500
             (ErrorBody "Failed to process your question. Please try again."
                        details))).
Proof.
  intros details. subst details. rewrite <- development_details_decide. split.
  - intros Hdt Hd Hthrow.
    rewrite (generate_document_valid env req_body calls Hdt Hd).
    destruct Hthrow as [-> | (prompt & -> & Hcall)]; [done |].
    cbn [fst]. by rewrite Hcall.
  - intros Hm Hthrow. rewrite (chat_valid env req_body calls Hm).
    destruct Hthrow as [-> | (prompt & -> & Hcall)]; [done |].
    cbn [fst]. by rewrite Hcall.
Qed.

Lemma completion_failure_response_witness :
  fst (generate_document env_failing body_nda []) =
    Ok (mkResponse 500 (ErrorBody "Failed to generate document" None))
  ∧ fst (generate_document env_development_failing body_toString []) =
    Ok (mkResponse 500
          (ErrorBody "Failed to generate document"
                     (Some "Cannot convert object to primitive value")))
  ∧ fst (chat env_development_failing body_question []) =
    Ok (mkResponse 500
          (ErrorBody "Failed to process your question. Please try again."
                     (Some "429 quota exceeded for key"))).
Proof.
  split; [| split].
  - apply (proj1 (completion_failure_response env_failing body_nda []
                    (mkError "429 quota exceeded for key")));
      [reflexivity | reflexivity |].
    right. eexists. split; reflexivity.
  - apply (proj1 (completion_failure_response env_development_failing
                    body_toString []
                    (mkError "Cannot convert object to primitive value")));
      [reflexivity | reflexivity |].
    left. reflexivity.
  - apply (proj2 (completion_failure_response env_development_failing
                    body_question [] (mkError "429 quota exceeded for key")));
      [reflexivity |].
    right. eexists. split; reflexivity.
Defined.

(** X4: whenever the error middleware, [/generate-document] or [/chat]
    sends a body with [details], the status is 500 and [NODE_ENV] is
    exactly [development]: in no other mode do these three paths reveal
    an error message. *)
Theorem details_only_in_development {Number : Type} `{JsNumber Number}
    env error (req_body : gmap string (json Number)) calls code text details :
  error_middleware env error = mkResponse code (ErrorBody text (Some details))
  ∨ fst (generate_document env req_body calls) =
      Ok (mkResponse code (ErrorBody text (Some details)))
  ∨ fst (chat env req_body calls) =
      Ok (mkResponse code (ErrorBody text (Some details))) →
  NODE_ENV env = Some "development" ∧ code = 500%Z.
Proof.
  intros [Hmw | [Hgen | Hchat]].
  - unfold error_middleware, res_status_json in Hmw.
    injection Hmw as <- _ Hdetails.
    by apply development_details_gated in Hdetails as [-> _].
  - destruct (truthy (req_body !! "documentType")
              && truthy (req_body !! "details")) eqn:Hvalid.
    + apply andb_true_iff in Hvalid as [Hdt Hd].
      rewrite (generate_document_valid env req_body calls Hdt Hd) in Hgen.
      destruct (build_generation_prompt _ _) as [prompt | thrown];
        cbn [fst] in Hgen.
      * destruct (generateContent env _) as [? | thrown]; [discriminate |].
        injection Hgen as <- _ Hdetails.
        by apply development_details_gated in Hdetails as [-> _].
      * injection Hgen as <- _ Hdetails.
        by apply development_details_gated in Hdetails as [-> _].
    + by rewrite (generate_document_invalid env req_body calls Hvalid) in Hgen.
  - destruct (truthy (req_body !! "message")) eqn:Hvalid.
    + rewrite (chat_valid env req_body calls Hvalid) in Hchat.
      destruct (build_chat_prompt _) as [prompt | thrown]; cbn [fst] in Hchat.
      * destruct (generateContent env _) as [? | thrown]; [discriminate |].
        injection Hchat as <- _ Hdetails.
        by apply development_details_gated in Hdetails as [-> _].
      * injection Hchat as <- _ Hdetails.
        by apply development_details_gated in Hdetails as [-> _].
    + by rewrite (chat_invalid env req_body calls Hvalid) in Hchat.
Qed.

Lemma details_only_in_development_witness :
  NODE_ENV env_development_failing = Some "development" ∧ 500%Z = 500%Z.
Proof.
  apply (details_only_in_development env_development_failing
           (mkError "bad gateway") body_question [] 500
           "Failed to process your question. Please try again."
           "429 quota exceeded for key").
  right. right. reflexivity.
Defined.

(** ** The prompt templates *)

(** X5: the chat prompt determines the message: two different messages
    never give the same prompt. *)
Theorem chat_prompt_injective message1 message2 :
  chat_prompt message1 = chat_prompt message2 → message1 = message2.
Proof.
  unfold chat_prompt, line. rewrite !append_assoc. intros Heq.
  repeat apply String.app_inj in Heq.
  by apply append_inv_tail in Heq.
Qed.

Lemma chat_prompt_injective_witness :
  "What is " +:+ "Section 498A?" = "What is Section 498A?".
Proof.
  apply chat_prompt_injective. reflexivity.
Defined.

(** X6: the generation prompt does not delimit its two fields.  Text
    moved from the start of [details] to the end of [documentType],
    across a copy of the fixed text that separates them, gives the same
    prompt: different requests can send identical prompts. *)
Theorem generation_prompt_ambiguous x y z :
  generation_prompt x (y +:+ generation_separator +:+ z) =
  generation_prompt (x +:+ generation_separator +:+ y) z
  ∧ x ≠ x +:+ generation_separator +:+ y.
Proof.
  split.
  - unfold generation_prompt, generation_separator, line.
    by rewrite !append_assoc.
  - intros Heq. apply (f_equal String.length) in Heq.
    rewrite !length_append in Heq.
    assert (0 < String.length generation_separator) by (vm_compute; lia).
    lia.
Qed.

(** ** The upload handler *)

(** What one iteration leaves behind, whatever its outcome. *)
Lemma process_file_effect env file disk :
  ∃ disk' entries,
    (∀ pf, process_file env file (mkUploadState disk pf) =
             (Ok tt, mkUploadState disk' (pf ++ entries)))
    ∧ (disk' = disk ∨ disk' = delete (File.path file) disk)
    ∧ 1 ≤ length entries ≤ 2
    ∧ Forall (λ entry, Processed.filename entry = File.originalname file) entries.
Proof.
  destruct (fst (extract env file (mkUploadState disk []))) as [content | e]
    eqn:Hex.
  - destruct (disk !! File.path file) as [data |] eqn:Hdisk.
    + exists (delete (File.path file) disk), [processed_entry file content].
      split; [| split; [by right | split; [cbn; lia | by repeat constructor]]].
      intros pf.
      apply (process_file_deletes env file (mkUploadState disk pf) content data);
        [| done].
      by rewrite <- Hex; apply extract_frame.
    + exists disk, ([processed_entry file content] ++ [failed_entry file]).
      split; [| split; [by left | split; [cbn; lia | by repeat constructor]]].
      intros pf.
      apply (process_file_unlink_fails env file (mkUploadState disk pf) content);
        [| done].
      by rewrite <- Hex; apply extract_frame.
  - exists disk, [failed_entry file].
    split; [| split; [by left | split; [cbn; lia | by repeat constructor]]].
    intros pf.
    apply (process_file_extract_fails env file (mkUploadState disk pf) e).
    by rewrite <- Hex; apply extract_frame.
Qed.

Lemma process_files_effect env files disk :
  ∃ disk' entries,
    (∀ pf, for_of files (process_file env) (mkUploadState disk pf) =
             (Ok tt, mkUploadState disk' (pf ++ entries)))
    ∧ (∀ path, disk' !! path = disk !! path
               ∨ (disk' !! path = None ∧ path ∈ File.path <$> files))
    ∧ length files ≤ length entries ≤ 2 * length files
    ∧ (∀ entry, entry ∈ entries →
         ∃ file, file ∈ files ∧ Processed.filename entry = File.originalname file)
    ∧ (∀ file, file ∈ files →
         ∃ entry, entry ∈ entries ∧ Processed.filename entry = File.originalname file).
Proof.
  revert disk. induction files as [| file files IH]; intros disk.
  - exists disk, []. split; [intros pf; by rewrite app_nil_r |].
    split; [by left |]. split; [cbn; lia |].
    split; intros ? Hin; by apply elem_of_nil in Hin.
  - destruct (process_file_effect env file disk)
      as (disk1 & new1 & Hfile & Hdisk1 & Hlen1 & Hnames1).
    destruct (IH disk1) as (disk2 & new2 & Hrest & Hdisk2 & Hlen2 & Hfrom & Hto).
    exists disk2, (new1 ++ new2). split; [| split; [| split; [| split]]].
    + intros pf. cbn [for_of]. unfold_monad. rewrite Hfile, Hrest.
      by rewrite app_assoc.
    + intros path. rewrite fmap_cons.
      destruct (Hdisk2 path) as [Hsame | [Hgone Hin]];
        [| right; split; [done | by right]].
      rewrite Hsame. destruct Hdisk1 as [-> | ->]; [by left |].
      destruct (decide (File.path file = path)) as [<- | Hne].
      * right. split; [apply lookup_delete_eq | by left].
      * left. by apply lookup_delete_ne.
    + rewrite length_app. cbn [length]. lia.
    + intros entry [Hin | Hin]%elem_of_app.
      * exists file. split; [by left |].
        by eapply Forall_forall in Hnames1.
      * destruct (Hfrom entry Hin) as (other & Hother & Hname).
        exists other. split; [by right | done].
    + intros other [-> | Hin]%elem_of_cons.
      * destruct new1 as [| entry new1]; [cbn in Hlen1; lia |].
        exists entry. split; [by left |].
        by apply Forall_cons in Hnames1 as [? _].
      * destruct (Hto other Hin) as (entry & Hentry & Hname).
        exists entry. split; [apply elem_of_app; by right | done].
Qed.

(** The run of the loop behind the answer to a non-empty batch. *)
Lemma serve_upload_run env files disk :
  files ≠ [] →
  ∃ disk' entries,
    (∀ pf, for_of files (process_file env) (mkUploadState disk pf) =
             (Ok tt, mkUploadState disk' (pf ++ entries)))
    ∧ serve_upload env (Some files) disk =
        (Ok (match stringify_error env entries with
             | None =>
                 mkResponse 200
                   (UploadBody true "Files processed successfully" entries)
             | Some error =>
                 mkResponse 500
                   (ErrorBody "Failed to process files" (Some (message error)))
             end), disk').
Proof.
  intros Hne.
  destruct (process_files_frame env files disk) as (disk' & entries & Hrun).
  exists disk', entries. split; [done |].
  by rewrite (serve_upload_nonempty env files disk
                (mkUploadState disk' entries) Hne (Hrun [])).
Qed.

(** One iteration, with the entries it appends spelled out. *)
Lemma process_file_group env file disk :
  ∃ disk' group,
    (∀ pf, process_file env file (mkUploadState disk pf) =
             (Ok tt, mkUploadState disk' (pf ++ group)))
    ∧ file_entries file group.
Proof.
  destruct (fst (extract env file (mkUploadState disk []))) as [content | e]
    eqn:Hex.
  - destruct (disk !! File.path file) as [data |] eqn:Hdisk.
    + exists (delete (File.path file) disk), [processed_entry file content].
      split; [| right; exists content; by left].
      intros pf.
      apply (process_file_deletes env file (mkUploadState disk pf) content data);
        [| done].
      by rewrite <- Hex; apply extract_frame.
    + exists disk, ([processed_entry file content] ++ [failed_entry file]).
      split; [| right; exists content; by right].
      intros pf.
      apply (process_file_unlink_fails env file (mkUploadState disk pf) content);
        [| done].
      by rewrite <- Hex; apply extract_frame.
  - exists disk, [failed_entry file]. split; [| by left].
    intros pf.
    apply (process_file_extract_fails env file (mkUploadState disk pf) e).
    by rewrite <- Hex; apply extract_frame.
Qed.

Lemma process_files_groups env files disk :
  ∃ disk' groups,
    (∀ pf, for_of files (process_file env) (mkUploadState disk pf) =
             (Ok tt, mkUploadState disk' (pf ++ concat groups)))
    ∧ Forall2 file_entries files groups.
Proof.
  revert disk. induction files as [| file files IH]; intros disk.
  - exists disk, []. split; [| constructor].
    intros pf. cbn. by rewrite app_nil_r.
  - destruct (process_file_group env file disk) as (disk1 & group & Hfile & Hshape).
    destruct (IH disk1) as (disk2 & groups & Hrest & Hshapes).
    exists disk2, (group :: groups). split; [| by constructor].
    intros pf. cbn [for_of concat]. unfold_monad. rewrite Hfile, Hrest.
    by rewrite app_assoc.
Qed.

(** X7: the upload handler answers 400 exactly when [req.files] is
    [undefined] or empty, with [{error: "No files uploaded"}] and the
    disk untouched; a request with at least one file is answered 200 or
    500, never 400. *)
Theorem upload_without_files env req_files disk :
  (req_files = None ∨ req_files = Some [] →
   serve_upload env req_files disk =
     (Ok (mkResponse 400 (ErrorBody "No files uploaded" None)), disk))
  ∧ (status_of (serve_upload env req_files disk) = Some 400%Z ↔
     req_files = None ∨ req_files = Some [])
  ∧ ((∃ file files, req_files = Some (file :: files)) →
     status_of (serve_upload env req_files disk) = Some 200%Z
     ∨ status_of (serve_upload env req_files disk) = Some 500%Z).
Proof.
  destruct req_files as [[| file files] |].
  - repeat split; try done; eauto; intros (? & ? & ?); done.
  - destruct (serve_upload_run env (file :: files) disk) as
      (disk' & entries & _ & ->); [done |].
    unfold status_of. cbn [fst].
    destruct (stringify_error env entries); cbn;
      repeat split; try done; eauto; intros [? | ?]; done.
  - repeat split; try done; eauto; intros (? & ? & ?); done.
Qed.

Lemma upload_without_files_witness :
  serve_upload env_production (Some []) disk_stored =
    (Ok (mkResponse 400 (ErrorBody "No files uploaded" None)), disk_stored)
  ∧ (status_of (serve_upload env_oversized (Some [sample_doc]) disk_stored)
       = Some 200%Z
     ∨ status_of (serve_upload env_oversized (Some [sample_doc]) disk_stored)
       = Some 500%Z).
Proof.
  split.
  - apply (upload_without_files env_production (Some []) disk_stored).
    right. reflexivity.
  - apply (upload_without_files env_oversized (Some [sample_doc]) disk_stored).
    by exists sample_doc, [].
Defined.

(** X8: the upload handler never creates or rewrites a file, and the only
    files it can remove are the temp files of its own batch: every other
    path holds after the answer what it held before. *)
Theorem upload_disk_frame env req_files disk path :
  let disk' := snd (serve_upload env req_files disk) in
  disk' !! path = disk !! path
  ∨ (disk' !! path = None
     ∧ ∃ files file, req_files = Some files ∧ file ∈ files
                     ∧ File.path file = path).
Proof.
  destruct req_files as [[| file files] |]; [by left | | by left].
  destruct (serve_upload_run env (file :: files) disk) as
    (disk' & entries & Hrun & Hserve); [done |].
  destruct (process_files_effect env (file :: files) disk) as
    (disk2 & entries2 & Hrun2 & Hframe & _).
  specialize (Hrun []). rewrite (Hrun2 []) in Hrun. injection Hrun as -> _.
  rewrite Hserve. cbn [snd].
  destruct (Hframe path) as [Hsame | [Hgone Hin]]; [by left |].
  right. split; [done |].
  apply list_elem_of_fmap in Hin as (owner & -> & Howner).
  by exists (file :: files), owner.
Qed.

(** X9: for a non-empty batch the collected [processedFiles] is, file
    by file and in upload order, one group of entries per uploaded file:
    the file's error entry alone, or its content entry, alone or followed
    by its error entry.  So every file has at least one entry and at most
    two.  The answer is 200 with this list, or 500 when serialising it
    throws. *)
Theorem upload_entries_bounds env files disk :
  files ≠ [] →
  ∃ groups disk',
    Forall2 file_entries files groups
    ∧ serve_upload env (Some files) disk =
        (Ok (match stringify_error env (concat groups) with
             | None =>
                 mkResponse 200
                   (UploadBody true "Files processed successfully"
                               (concat groups))
             | Some error =>
                 mkResponse 500
                   (ErrorBody "Failed to process files" (Some (message error)))
             end), disk').
Proof.
  intros Hne.
  destruct (process_files_groups env files disk) as (disk' & groups & Hrun & Hshape).
  exists groups, disk'. split; [done |].
  by rewrite (serve_upload_nonempty env files disk
                (mkUploadState disk' (concat groups)) Hne (Hrun [])).
Qed.

Lemma upload_entries_bounds_witness :
  ∃ groups disk',
    Forall2 file_entries [sample_pdf; sample_doc] groups
    ∧ serve_upload env_failing (Some [sample_pdf; sample_doc]) disk_doc_missing =
        (Ok (mkResponse 200 (UploadBody true "Files processed successfully"
                                        (concat groups))), disk').
Proof.
  destruct (upload_entries_bounds env_failing [sample_pdf; sample_doc]
              disk_doc_missing) as (groups & disk' & Hshape & Hserve).
  - discriminate.
  - exists groups, disk'. split; [exact Hshape | exact Hserve].
Defined.

(** X10: when every temp file of a non-empty batch is on disk under a
    path of its own, the collected [processedFiles] has exactly one entry
    per uploaded file, in upload order, each under the file's original
    name.  The answer is 200 with this list, or 500 when serialising it
    throws. *)
Theorem upload_one_entry_each env files disk :
  files ≠ [] →
  NoDup (File.path <$> files) →
  (∀ file, file ∈ files → is_Some (disk !! File.path file)) →
  ∃ entries disk',
    Processed.filename <$> entries = File.originalname <$> files
    ∧ serve_upload env (Some files) disk =
        (Ok (match stringify_error env entries with
             | None =>
                 mkResponse 200
                   (UploadBody true "Files processed successfully" entries)
             | Some error =>
                 mkResponse 500
                   (ErrorBody "Failed to process files" (Some (message error)))
             end), disk').
Proof.
  intros Hne Hdup Hon.
  destruct (process_files_one_entry_each env files disk [] Hdup Hon) as
    (disk' & entries & Hrun & Hnames).
  exists entries, disk'. split; [done |].
  by rewrite (serve_upload_nonempty env files disk
                (mkUploadState disk' entries) Hne Hrun).
Qed.

Lemma upload_one_entry_each_witness :
  ∃ entries disk',
    Processed.filename <$> entries = ["notes.doc"; "contract.pdf"]
    ∧ serve_upload env_failing (Some [sample_doc; sample_pdf]) disk_stored =
        (Ok (mkResponse 200 (UploadBody true "Files processed successfully"
                                        entries)), disk').
Proof.
  destruct (upload_one_entry_each env_failing [sample_doc; sample_pdf]
              disk_stored) as (entries & disk' & Hnames & Hserve).
  - discriminate.
  - apply (bool_decide_unpack _). vm_compute. exact I.
  - intros file Hin.
    apply elem_of_cons in Hin as [-> | Hin];
      [| apply elem_of_cons in Hin as [-> | Hin];
         [| by apply elem_of_nil in Hin]];
      eexists; vm_compute; reflexivity.
  - exists entries, disk'. split; [exact Hnames | exact Hserve].
Defined.

(** Extraction succeeds on a stored file whose parse, if it is a PDF,
    returns. *)
Lemma extract_succeeds env file disk pf data :
  disk !! File.path file = Some data →
  (File.mimetype file = mime_pdf → ∃ text, pdf env data = Ok text) →
  ∃ content, fst (extract env file (mkUploadState disk pf)) = Ok content.
Proof.
  intros Hdisk Hparse. unfold extract.
  destruct (String.eqb_spec (File.mimetype file) mime_pdf) as [Hpdf | _];
    [| by exists ""].
  destruct (Hparse Hpdf) as [text Htext]. exists text.
  unfold_monad. unfold fs_readFile. cbn [fs]. rewrite Hdisk. cbn.
  by rewrite Htext.
Qed.

(** While no extraction fails, the loop removes exactly the temp files of
    the batch and appends one error-free entry per file. *)
Lemma process_files_clean env files disk pf :
  NoDup (File.path <$> files) →
  (∀ file, file ∈ files →
     ∃ data, disk !! File.path file = Some data
             ∧ (File.mimetype file = mime_pdf → ∃ text, pdf env data = Ok text)) →
  ∃ disk' entries,
    for_of files (process_file env) (mkUploadState disk pf) =
      (Ok tt, mkUploadState disk' (pf ++ entries))
    ∧ (∀ path, disk' !! path =
               if decide (path ∈ File.path <$> files) then None
               else disk !! path)
    ∧ Processed.filename <$> entries = File.originalname <$> files
    ∧ Forall (λ entry, Processed.error entry = None) entries.
Proof.
  revert disk pf. induction files as [| file files IH]; intros disk pf Hdup Hok.
  - exists disk, []. split; [by rewrite app_nil_r |].
    split; [| by split]. intros path. rewrite decide_False; [done |].
    cbn. apply not_elem_of_nil.
  - rewrite fmap_cons in Hdup. apply NoDup_cons in Hdup as [Hfresh Hdup].
    destruct (Hok file) as (data & Hdata & Hparse); [by left |].
    destruct (extract_succeeds env file disk pf data Hdata Hparse)
      as [content Hex].
    pose proof (process_file_deletes env file (mkUploadState disk pf)
                  content data Hex Hdata) as Hfile.
    cbn [fs processedFiles] in Hfile.
    destruct (IH (delete (File.path file) disk)
                 (pf ++ [processed_entry file content]) Hdup)
      as (disk' & rest & Hrest & Hdisk' & Hnames & Herrors).
    { intros other Hother.
      destruct (Hok other) as (odata & Hodata & Hoparse); [by right |].
      exists odata. split; [| done].
      rewrite lookup_delete_ne; [done |].
      intros Heq. apply Hfresh. rewrite Heq. by apply list_elem_of_fmap_2. }
    exists disk', (processed_entry file content :: rest).
    split; [| split; [| split]].
    + cbn [for_of]. unfold_monad. rewrite Hfile, Hrest.
      by rewrite <- app_assoc.
    + intros path. rewrite Hdisk', fmap_cons.
      destruct (decide (path ∈ File.path <$> files)) as [Hin | Hout].
      * rewrite decide_True; [done | by right].
      * destruct (decide (path = File.path file)) as [-> | Hne].
        -- rewrite decide_True; [apply lookup_delete_eq | by left].
        -- rewrite decide_False.
           ++ by apply lookup_delete_ne.
           ++ by intros [? | ?]%elem_of_cons.
    + cbn. by rewrite Hnames.
    + by constructor.
Qed.

(** X11: when the temp files of a non-empty batch are on disk under
    distinct paths and no PDF of the batch fails to parse, the temp files
    of the batch are all gone after the answer, every other file is
    unchanged, and the collected [processedFiles] has one entry per file,
    none with an [error].  The answer is 200 with this list, or 500 when
    serialising it throws. *)
Theorem upload_removes_all_temp_files env files disk :
  files ≠ [] →
  NoDup (File.path <$> files) →
  (∀ file, file ∈ files →
     ∃ data, disk !! File.path file = Some data
             ∧ (File.mimetype file = mime_pdf → ∃ text, pdf env data = Ok text)) →
  ∃ entries disk',
    (∀ path, disk' !! path =
             if decide (path ∈ File.path <$> files) then None
             else disk !! path)
    ∧ Processed.filename <$> entries = File.originalname <$> files
    ∧ Forall (λ entry, Processed.error entry = None) entries
    ∧ serve_upload env (Some files) disk =
        (Ok (match stringify_error env entries with
             | None =>
                 mkResponse 200
                   (UploadBody true "Files processed successfully" entries)
             | Some error =>
                 mkResponse 500
                   (ErrorBody "Failed to process files" (Some (message error)))
             end), disk').
Proof.
  intros Hne Hdup Hok.
  destruct (process_files_clean env files disk [] Hdup Hok) as
    (disk' & entries & Hrun & Hdisk & Hnames & Herrors).
  exists entries, disk'. do 3 (split; [done |]).
  by rewrite (serve_upload_nonempty env files disk
                (mkUploadState disk' entries) Hne Hrun).
Qed.

Lemma upload_removes_all_temp_files_witness :
  ∃ entries disk',
    serve_upload env_production (Some [sample_pdf; sample_doc]) disk_stored =
      (Ok (mkResponse 200 (UploadBody true "Files processed successfully"
                                      entries)), disk')
    ∧ disk' !! sample_pdf_path = None
    ∧ disk' !! sample_doc_path = None.
Proof.
  destruct (upload_removes_all_temp_files env_production
              [sample_pdf; sample_doc] disk_stored)
    as (entries & disk' & Hdisk & _ & _ & Hserve).
  - discriminate.
  - apply (bool_decide_unpack _). vm_compute. exact I.
  - intros file Hin.
    apply elem_of_cons in Hin as [-> | Hin];
      [| apply elem_of_cons in Hin as [-> | Hin];
         [| by apply elem_of_nil in Hin]].
    + exists sample_pdf_bytes. split; [reflexivity |].
      intros _. exists "page one". reflexivity.
    + exists sample_doc_bytes. split; [reflexivity |].
      intros Hpdf. discriminate Hpdf.
  - exists entries, disk'. split; [exact Hserve |].
    split; rewrite Hdisk; reflexivity.
Defined.

(** X12: a PDF whose temp file is on disk and whose parse returns gets
    one entry with the parsed text of the stored bytes as [content] and
    the size multer reported, and its temp file is removed. *)
Theorem pdf_extracted_entry env file st data text :
  File.mimetype file = mime_pdf →
  fs st !! File.path file = Some data →
  pdf env data = Ok text →
  process_file env file st =
    (Ok tt,
     mkUploadState (delete (File.path file) (fs st))
       (processedFiles st ++
        [Processed.mk (File.originalname file) (Some text)
                      (Some (File.size file)) None])).
Proof.
  intros Hpdf Hdisk Hparse.
  apply (process_file_deletes env file st text data); [| done].
  unfold extract. rewrite Hpdf. unfold_monad. unfold fs_readFile.
  cbn. by rewrite Hdisk, Hparse.
Qed.

Lemma pdf_extracted_entry_witness :
  process_file env_production sample_pdf (mkUploadState disk_stored []) =
    (Ok tt,
     mkUploadState (delete sample_pdf_path disk_stored)
       [Processed.mk "contract.pdf" (Some "page one") (Some 3%Z) None]).
Proof.
  apply (pdf_extracted_entry env_production sample_pdf
           (mkUploadState disk_stored []) sample_pdf_bytes "page one");
    reflexivity.
Defined.

(** X13: a PDF whose temp file is not on disk is not parsed: reading it
    fails, the file gets the single error entry, and the disk is left as
    it was, whatever the parser would have done. *)
Theorem pdf_missing_temp_file env file st :
  File.mimetype file = mime_pdf →
  fs st !! File.path file = None →
  process_file env file st =
    (Ok tt,
     mkUploadState (fs st)
       (processedFiles st ++
        [Processed.mk (File.originalname file) None None
                      (Some "Failed to process file")])).
Proof.
  intros Hpdf Hdisk.
  apply (process_file_extract_fails env file st
           (ENOENT "open" (File.path file))).
  unfold extract. rewrite Hpdf. unfold_monad. unfold fs_readFile.
  cbn. by rewrite Hdisk.
Qed.

Lemma pdf_missing_temp_file_witness :
  process_file env_production sample_pdf (mkUploadState ∅ []) =
    (Ok tt,
     mkUploadState ∅
       [Processed.mk "contract.pdf" None None (Some "Failed to process file")]).
Proof.
  apply (pdf_missing_temp_file env_production sample_pdf (mkUploadState ∅ []));
    reflexivity.
Defined.

(** X14: batches compose.  If serving a first batch answers 200 and
    serving a second batch on the disk it left answers 200, then serving
    the two batches as one request leaves the same disk and collects the
    entries of the first followed by those of the second: it answers 200
    with them, or 500 when serialising the joined list throws. *)
Theorem upload_batches_compose env files1 files2 disk disk1 disk2
    entries1 entries2 :
  serve_upload env (Some files1) disk =
    (Ok (mkResponse 200 (UploadBody true "Files processed successfully"
                                    entries1)), disk1) →
  serve_upload env (Some files2) disk1 =
    (Ok (mkResponse 200 (UploadBody true "Files processed successfully"
                                    entries2)), disk2) →
  serve_upload env (Some (files1 ++ files2)) disk =
    (Ok (match stringify_error env (entries1 ++ entries2) with
         | None =>
             mkResponse 200
               (UploadBody true "Files processed successfully"
                           (entries1 ++ entries2))
         | Some error =>
             mkResponse 500
               (ErrorBody "Failed to process files" (Some (message error)))
         end), disk2).
Proof.
  intros Hfirst Hsecond.
  assert (files1 ≠ []) as Hne1 by (intros ->; discriminate Hfirst).
  assert (files2 ≠ []) as Hne2 by (intros ->; discriminate Hsecond).
  destruct (serve_upload_run env files1 disk Hne1) as (d1 & e1 & Hrun1 & Hs1).
  destruct (serve_upload_run env files2 disk1 Hne2) as (d2 & e2 & Hrun2 & Hs2).
  rewrite Hs1 in Hfirst. rewrite Hs2 in Hsecond.
  destruct (stringify_error env e1); [discriminate Hfirst |].
  destruct (stringify_error env e2); [discriminate Hsecond |].
  injection Hfirst as -> ->. injection Hsecond as -> ->.
  rewrite (serve_upload_nonempty env (files1 ++ files2) disk
             (mkUploadState disk2 (entries1 ++ entries2))).
  - done.
  - by destruct files1.
  - rewrite for_of_app, (Hrun1 []). cbn [app]. by rewrite (Hrun2 entries1).
Qed.

Lemma upload_batches_compose_witness :
  serve_upload env_failing (Some ([sample_doc] ++ [sample_pdf])) disk_stored =
    (Ok (mkResponse 200 (UploadBody true "Files processed successfully"
           ([processed_entry sample_doc ""] ++ [failed_entry sample_pdf]))),
     disk_doc_missing).
Proof.
  apply (upload_batches_compose env_failing [sample_doc] [sample_pdf]
           disk_stored disk_doc_missing disk_doc_missing);
    reflexivity.
Defined.

(** X17: a file whose extraction throws, whatever the error, gets
    exactly one entry, [{filename: originalname, error: "Failed to
    process file"}], with no [content], no [size] and nothing of the
    error's message; the iteration ends normally and the disk is left as
    it was. *)
Theorem extraction_failure_single_entry env file st error :
  fst (extract env file st) = Throw error →
  process_file env file st =
    (Ok tt,
     mkUploadState (fs st)
       (processedFiles st ++
        [Processed.mk (File.originalname file) None None
                      (Some "Failed to process file")])).
Proof. apply process_file_extract_fails. Qed.

Lemma extraction_failure_single_entry_witness :
  process_file env_failing sample_pdf (mkUploadState disk_stored []) =
    (Ok tt,
     mkUploadState disk_stored
       [Processed.mk "contract.pdf" None None (Some "Failed to process file")]).
Proof.
  apply (extraction_failure_single_entry env_failing sample_pdf
           (mkUploadState disk_stored []) (mkError "Invalid PDF structure")).
  reflexivity.
Defined.

(** ** Stored file names *)

(** X15: for one field name and one extension, the stored file name
    determines the clock value and the random draw it was built from:
    two uploads get the same name only when both coincide. *)
Theorem storage_filename_injective extname now1 rnd1 now2 rnd2 fieldname
    original1 original2 :
  (0 ≤ now1)%Z → (0 ≤ now2)%Z →
  extname original1 = extname original2 →
  storage.filename extname now1 rnd1 fieldname original1 =
  storage.filename extname now2 rnd2 fieldname original2 →
  now1 = now2 ∧ rnd1 = rnd2.
Proof.
  intros Hnow1 Hnow2 Hext. unfold storage.filename. rewrite Hext.
  intros Heq. do 2 apply String.app_inj in Heq.
  apply append_inv_tail in Heq.
  apply split_at_dash in Heq as [Hnow Hrnd];
    [| by apply pretty_Z_no_dash..].
  split; by apply (inj pretty).
Qed.

Lemma storage_filename_injective_witness :
  (1730000000000 = 1730000000000)%Z ∧ (42 = 42)%Z.
Proof.
  apply (storage_filename_injective (λ _, ".pdf") 1730000000000 42
           1730000000000 42 "files" "contract.pdf" "scan.pdf");
    [lia | lia | reflexivity | reflexivity].
Defined.

(** ** Interpolation *)

(** X16: both templates embed their inputs as they are, between fixed
    texts: nothing is escaped, trimmed or cut, so the prompt is as long
    as the fixed text plus the inputs. *)
Theorem prompts_embed_inputs_verbatim :
  (∃ before between after,
     ∀ documentType details,
       generation_prompt documentType details =
         before +:+ documentType +:+ between +:+ details +:+ after
       ∧ String.length (generation_prompt documentType details) =
           String.length before + String.length between + String.length after
           + String.length documentType + String.length details)
  ∧ (∃ before after,
       ∀ message,
         chat_prompt message = before +:+ message +:+ after
         ∧ String.length (chat_prompt message) =
             String.length before + String.length after
             + String.length message).
Proof.
  split.
  - exists (nl +:+ indent12 +:+ "Generate a professional "),
           generation_separator,
           (nl +:+ line "" +:+ line "Requirements:" +:+
            line "1. Follow Indian legal format" +:+
            line "2. Include all necessary clauses" +:+
            line "3. Use formal legal language" +:+
            line "4. Ensure compliance with Indian laws" +:+
            line "5. Include jurisdiction under Indian courts" +:+
            indent8).
    intros documentType details.
    assert (generation_prompt documentType details =
            (nl +:+ indent12 +:+ "Generate a professional ") +:+ documentType
            +:+ generation_separator +:+ details +:+
            (nl +:+ line "" +:+ line "Requirements:" +:+
             line "1. Follow Indian legal format" +:+
             line "2. Include all necessary clauses" +:+
             line "3. Use formal legal language" +:+
             line "4. Ensure compliance with Indian laws" +:+
             line "5. Include jurisdiction under Indian courts" +:+
             indent8)) as Hshape.
    { unfold generation_prompt, generation_separator, line.
      by rewrite !append_assoc. }
    split; [exact Hshape |].
    rewrite Hshape, !length_append. lia.
  - exists (nl +:+ indent12 +:+
            "You are an expert Indian legal assistant. Provide a clear and " +:+
            "helpful response to this question: " +:+ dquote),
           (dquote +:+ nl +:+ nl +:+
            line "Guidelines:" +:+
            line "1. Use simple, clear language" +:+
            line "2. Reference specific Indian laws and regulations" +:+
            line "3. Include relevant legal precedents if applicable" +:+
            line "4. Suggest consulting a lawyer for complex matters" +:+
            line "5. Structure the response clearly" +:+
            line "6. Keep it concise but informative" +:+
            nl +:+
            line ("Important: Always include a disclaimer that this is general " +:+
                  "information and not legal advice.") +:+
            indent8).
    intros message.
    assert (chat_prompt message =
            (nl +:+ indent12 +:+
             "You are an expert Indian legal assistant. Provide a clear and " +:+
             "helpful response to this question: " +:+ dquote) +:+ message +:+
            (dquote +:+ nl +:+ nl +:+
             line "Guidelines:" +:+
             line "1. Use simple, clear language" +:+
             line "2. Reference specific Indian laws and regulations" +:+
             line "3. Include relevant legal precedents if applicable" +:+
             line "4. Suggest consulting a lawyer for complex matters" +:+
             line "5. Structure the response clearly" +:+
             line "6. Keep it concise but informative" +:+
             nl +:+
             line ("Important: Always include a disclaimer that this is general " +:+
                   "information and not legal advice.") +:+
             indent8)) as Hshape.
    { unfold chat_prompt, line. by rewrite !append_assoc. }
    split; [exact Hshape |].
    rewrite Hshape, !length_append. lia.
Qed.
